(** * Billing provider selection and webhook dispatch

    A shallow embedding of the provider-selection and webhook-handling code of
    the repository:

    - [packages/billing/src/services/billing-webhook-handler.service.ts]
      (the abstract [BillingWebhookHandlerService]),
    - the billing event handler factory
      ([BillingEventHandlerFactoryService.GetProviderStrategy]),
    - the billing gateway provider lookup
      ([getBillingGatewayProvider], [getBillingProvider]),
    - [packages/database-webhooks/src/server/services/verifier/index.ts]
      ([getDatabaseWebhookVerifier]),
    - the request middleware ([middleware], [withCsrfMiddleware],
      [adminMiddleware], [getPatterns], [matchUrlPattern], [setRequestId]),
    - the submit handler of the form in [update-member-role-dialog.tsx].

    An [async] function is embedded as a computation over an explicit world:
    a resolved promise is [Ret], a rejected promise (a [throw]) is [Throw].
    State survives a [throw], as it does in JavaScript. *)

From Stdlib Require Import Ascii String List Bool.
From ExtLib Require Import Structures.Monad.
Import ListNotations.
Import MonadNotation.

Local Open Scope string_scope.
Local Open Scope monad_scope.

(** ** JavaScript values and the effect monad *)

Module Js.

(** The fragment of JavaScript values the embedded functions handle.
    [VError name message] is an error object: [new Error(m)] is
    [VError "Error" m]. *)
#[warnings="-register-all"] Inductive value : Type :=
| VUndefined
| VNull
| VBool (b : bool)
| VString (s : string)
| VError (name message : string)
| VObject (fields : list (string * value)).

(** [ToBoolean]. *)
Definition truthy (v : value) : bool :=
  match v with
  | VUndefined | VNull => false
  | VBool b => b
  | VString s => negb (s =? "")
  | VError _ _ | VObject _ => true
  end.

(** The test of [??]: the left operand is [null] or [undefined]. *)
Definition nullish (v : value) : bool :=
  match v with
  | VUndefined | VNull => true
  | _ => false
  end.

Definition is_error_object (v : value) : bool :=
  match v with
  | VError _ _ => true
  | _ => false
  end.

Fixpoint lookup_field (k : string) (fields : list (string * value)) : value :=
  match fields with
  | [] => VUndefined
  | (k', v) :: rest => if k =? k' then v else lookup_field k rest
  end.

(** How a call, an [await] or a property access ends. *)
Inductive outcome (A : Type) : Type :=
| Ret (a : A)
| Throw (e : value).
Arguments Ret {A} a.
Arguments Throw {A} e.

(** What the embedded code does to its surroundings, in order. *)
Inductive event : Type :=
| EImport (specifier : string)
| ENew (class : string)
| ECall (fn : string) (args : list value)
| ENormalize (payload : value)
| ECallback (name : string) (args : list value).

(** Code outside the embedded functions (vendor modules, the database
    client, the caller's callbacks) acts on a store of its own, of type
    [S], and cannot write to the log. *)
Definition ext (S A : Type) : Type := S -> outcome A * S.

Record world (S : Type) : Type := mkWorld { log : list event; store : S }.
Arguments mkWorld {S} log store.
Arguments log {S} w.
Arguments store {S} w.

Definition M (S A : Type) : Type := world S -> outcome A * world S.

Definition ret_M {S A} (a : A) : M S A := fun w => (Ret a, w).

Definition bind_M {S A B} (c : M S A) (k : A -> M S B) : M S B :=
  fun w =>
    match c w with
    | (Ret a, w') => k a w'
    | (Throw e, w') => (Throw e, w')
    end.

#[export] Instance Monad_M {S} : Monad (M S) :=
  {| ret := @ret_M S; bind := @bind_M S |}.

Definition throw {S A} (e : value) : M S A := fun w => (Throw e, w).

(** Run outside code, recording that it was reached. *)
Definition perform {S A} (ev : event) (f : ext S A) : M S A :=
  fun w =>
    let (r, s') := f (store w) in
    (r, mkWorld (log w ++ [ev]) s').

(** Run outside code without a record. *)
Definition lift {S A} (f : ext S A) : M S A :=
  fun w =>
    let (r, s') := f (store w) in
    (r, mkWorld (log w) s').

(** [o.k]: a [TypeError] on [null] and [undefined]. *)
Definition get_prop {S} (o : value) (k : string) : M S value :=
  match o with
  | VObject fields => ret (lookup_field k fields)
  | VNull =>
      throw (VError "TypeError"
               ("Cannot read properties of null (reading '" ++ k ++ "')"))
  | VUndefined =>
      throw (VError "TypeError"
               ("Cannot read properties of undefined (reading '" ++ k ++ "')"))
  | _ => ret VUndefined
  end.

(** A module namespace: each exported class, as the effect of [new C()]. *)
Definition module_ns (S Obj : Type) : Type := string -> ext S Obj.

(** The module system: evaluating the module a specifier names. *)
Definition loader (S Obj : Type) : Type := string -> ext S (module_ns S Obj).

(** [await import(specifier)]. *)
Definition import_ {S Obj} (modules : loader S Obj) (specifier : string)
  : M S (module_ns S Obj) :=
  perform (EImport specifier) (modules specifier).

(** [new C()] for a class [C] taken from a namespace. *)
Definition new_ {S Obj} (ns : module_ns S Obj) (class : string) : M S Obj :=
  perform (ENew class) (ns class).

End Js.

Import Js.

(** ** billing-webhook-handler.service.ts *)

(** An HTTP request, as far as a webhook handler reads it. *)
Record Request : Type := mkRequest {
  headers : list (string * string);
  body : string
}.

(** The [params] argument of [handleWebhookEvent]: the five callbacks. The
    subscription and order parameters are database rows, kept as values. *)
Record WebhookCallbacks (S : Type) : Type := mkCallbacks {
  onCheckoutSessionCompleted : value -> string -> ext S value;
  onSubscriptionUpdated : value -> string -> ext S value;
  onSubscriptionDeleted : string -> ext S value;
  onPaymentSucceeded : string -> ext S value;
  onPaymentFailed : string -> ext S value
}.
Arguments mkCallbacks {S}.
Arguments onCheckoutSessionCompleted {S} _ _ _.
Arguments onSubscriptionUpdated {S} _ _ _.
Arguments onSubscriptionDeleted {S} _ _.
Arguments onPaymentSucceeded {S} _ _.
Arguments onPaymentFailed {S} _ _.

(** The abstract class [BillingWebhookHandlerService]: its two abstract
    methods. [verifyWebhookSignature] receives the request and nothing else;
    [handleWebhookEvent] receives the event and the callbacks. *)
Record BillingWebhookHandlerService (S : Type) : Type := mkHandler {
  verifyWebhookSignature : Request -> ext S value;
  handleWebhookEvent : value -> WebhookCallbacks S -> M S value
}.
Arguments mkHandler {S}.
Arguments verifyWebhookSignature {S} _ _.
Arguments handleWebhookEvent {S} _ _ _.

(** ** The billing event handler factory *)

Section Factory.

Variable S : Type.

(** [@kit/stripe] and [@kit/lemon-squeezy] are packages outside the embedded
    files: they are reached through the module system. *)
Variable modules : loader S (BillingWebhookHandlerService S).

(** [BillingEventHandlerFactoryService.GetProviderStrategy]: the [switch]
    compares with [===], on strings the equality of their characters. *)
Definition GetProviderStrategy (provider : string)
  : M S (BillingWebhookHandlerService S) :=
  if provider =? "stripe" then
    ns <- import_ modules "@kit/stripe" ;;
    new_ ns "StripeWebhookHandlerService"
  else if provider =? "lemon-squeezy" then
    ns <- import_ modules "@kit/lemon-squeezy" ;;
    new_ ns "LemonSqueezyWebhookHandlerService"
  else if provider =? "paddle" then
    throw (VError "Error" "Paddle is not supported yet")
  else
    throw (VError "Error" ("Unsupported billing provider: " ++ provider)).

End Factory.

Arguments GetProviderStrategy {S} modules provider.

(** ** The billing gateway provider lookup *)

(** What [await client.from('config').select('billing_provider').single()]
    resolves to. *)
Record QueryResult : Type := mkQueryResult {
  data : value;
  error : value
}.

Definition config_query : event :=
  ECall "client.from('config').select('billing_provider').single" [].

Section BillingGatewayProvider.

Variable S : Type.

(** The billing gateway service and [createBillingGatewayService], from
    [./billing-gateway.service], are outside the embedded files. *)
Variable Gateway : Type.
Variable createBillingGatewayService : value -> ext S Gateway.

(** [getBillingProvider]. The test is [error ?? !data.billing_provider]:
    [data.billing_provider] is read only when [error] is nullish. *)
Definition getBillingProvider (client : ext S QueryResult) : M S value :=
  r <- perform config_query client ;;
  c <- (if nullish (error r)
        then bp <- get_prop (data r) "billing_provider" ;;
             ret (VBool (negb (truthy bp)))
        else ret (error r)) ;;
  if truthy c then throw (error r)
  else get_prop (data r) "billing_provider".

(** [getBillingGatewayProvider]. *)
Definition getBillingGatewayProvider (client : ext S QueryResult)
  : M S Gateway :=
  provider <- getBillingProvider client ;;
  perform (ECall "createBillingGatewayService" [provider])
          (createBillingGatewayService provider).

End BillingGatewayProvider.

Arguments getBillingProvider {S} client.
Arguments getBillingGatewayProvider {S Gateway} createBillingGatewayService client.

(** ** database-webhooks/src/server/services/verifier/index.ts *)

(** [process.env.WEBHOOK_SENDER_PROVIDER ?? 'postgres']: an unset variable
    reads as [undefined], here [None]. *)
Definition WEBHOOK_SENDER_PROVIDER (env : option string) : string :=
  match env with
  | Some v => v
  | None => "postgres"
  end.

Section DatabaseWebhookVerifier.

Variable S : Type.

(** The verifier service class is in a file outside the embedded ones. *)
Variable Verifier : Type.
Variable modules : loader S Verifier.

Definition getDatabaseWebhookVerifier (env : option string) : M S Verifier :=
  if WEBHOOK_SENDER_PROVIDER env =? "postgres" then
    ns <- import_ modules "./postgres-database-webhook-verifier.service" ;;
    new_ ns "PostgresDatabaseWebhookVerifierService"
  else
    throw (VError "Error"
             ("Invalid WEBHOOK_SENDER_PROVIDER: " ++ WEBHOOK_SENDER_PROVIDER env)).

End DatabaseWebhookVerifier.

Arguments getDatabaseWebhookVerifier {S Verifier} modules env.

(** ** The webhook dispatch pipeline

    The concrete handler services of the providers and the service that
    drives them are outside the embedded files; only the abstract class
    above is inside. This part follows the design document of the
    repository. *)

(** Modelled from the spec: the Canonical Billing Event of section 3, "a
    closed set of variants" with the fields listed there. The normalizers
    that produce it are missing from the embedded files. *)
Inductive CanonicalBillingEvent : Type :=
| CheckoutCompleted (subscriptionOrOrder : value) (customerId : string)
| SubscriptionUpdated (subscription : value) (customerId : string)
| SubscriptionDeleted (subscriptionId : string)
| PaymentSucceeded (sessionId : string)
| PaymentFailed (sessionId : string).

(** Modelled from the spec: the record an invocation of a callback leaves,
    one name per member of the Callback Set interface of section 6, with
    "the event's typed fields" as arguments. The handler implementations
    are missing from the embedded files. *)
Definition callback_event (ev : CanonicalBillingEvent) : event :=
  match ev with
  | CheckoutCompleted sub cid =>
      ECallback "onCheckoutSessionCompleted" [sub; VString cid]
  | SubscriptionUpdated sub cid =>
      ECallback "onSubscriptionUpdated" [sub; VString cid]
  | SubscriptionDeleted id => ECallback "onSubscriptionDeleted" [VString id]
  | PaymentSucceeded id => ECallback "onPaymentSucceeded" [VString id]
  | PaymentFailed id => ECallback "onPaymentFailed" [VString id]
  end.

(** How often the callback [name] was invoked according to a log. *)
Definition is_callback (name : string) (ev : event) : bool :=
  match ev with
  | ECallback n _ => n =? name
  | _ => false
  end.

Definition fired (name : string) (l : list event) : nat :=
  length (filter (is_callback name) l).

(** Whether a log records a run of the normalizer. *)
Definition is_normalize (ev : event) : bool :=
  match ev with
  | ENormalize _ => true
  | _ => false
  end.

(** What a handler that awaits a callback and returns nothing settles to: its value is
    dropped, its rejection is kept. *)
Definition settle (r : outcome value) : outcome value :=
  match r with
  | Ret _ => Ret VUndefined
  | Throw e => Throw e
  end.

Section Dispatch.

Variable S : Type.

(** Modelled from the spec: "the single matching callback from the Callback
    Set" of section 4.3, for each variant. The handler implementations are
    missing from the embedded files. *)
Definition callback_of (callbacks : WebhookCallbacks S)
  (ev : CanonicalBillingEvent) : ext S value :=
  match ev with
  | CheckoutCompleted sub cid => onCheckoutSessionCompleted callbacks sub cid
  | SubscriptionUpdated sub cid => onSubscriptionUpdated callbacks sub cid
  | SubscriptionDeleted id => onSubscriptionDeleted callbacks id
  | PaymentSucceeded id => onPaymentSucceeded callbacks id
  | PaymentFailed id => onPaymentFailed callbacks id
  end.

(** Modelled from the spec: the Event Normalizer + Dispatcher of section
    4.3, [handle(verifiedPayload, callbacks) -> void]: classify the payload,
    invoke the matching callback and await it, ignore an unrecognized event
    type. The implementations of [handleWebhookEvent] are missing from the
    embedded files; the provider-specific discrimination is [classify]. *)
Definition normalizeAndDispatch
  (classify : value -> option CanonicalBillingEvent)
  (payload : value) (callbacks : WebhookCallbacks S) : M S value :=
  canonical <- perform (ENormalize payload)
                 (fun s => (Ret (classify payload), s)) ;;
  match canonical with
  | Some ev =>
      _ <- perform (callback_event ev) (callback_of callbacks ev) ;;
      ret VUndefined
  | None => ret VUndefined
  end.

(** Modelled from the spec: a provider's capability set of section 4.1, a
    verifier together with its normalizer and dispatcher. The provider
    packages are missing from the embedded files. *)
Definition providerStrategy
  (verify : Request -> ext S value)
  (classify : value -> option CanonicalBillingEvent)
  : BillingWebhookHandlerService S :=
  mkHandler verify (normalizeAndDispatch classify).

(** Modelled from the spec: the Webhook Dispatcher of section 2 on a
    resolved strategy, "Verifier (authenticates) -> Normalizer
    (canonicalizes) -> domain callback invocation". The service that calls
    the strategy is missing from the embedded files. *)
Definition dispatchWebhook (strategy : BillingWebhookHandlerService S)
  (request : Request) (callbacks : WebhookCallbacks S) : M S value :=
  payload <- lift (verifyWebhookSignature strategy request) ;;
  handleWebhookEvent strategy payload callbacks.

(** Modelled from the spec: the whole data flow of section 2, "Dispatcher ->
    Strategy Resolver (selects provider impl) -> Verifier -> Normalizer ->
    domain callback invocation", with the factory above as the resolver. *)
Definition receiveWebhook
  (modules : loader S (BillingWebhookHandlerService S))
  (provider : string) (request : Request) (callbacks : WebhookCallbacks S)
  : M S value :=
  strategy <- GetProviderStrategy modules provider ;;
  dispatchWebhook strategy request callbacks.

End Dispatch.

Arguments callback_of {S} callbacks ev.
Arguments normalizeAndDispatch {S} classify payload callbacks.
Arguments providerStrategy {S} verify classify.
Arguments dispatchWebhook {S} strategy request callbacks.
Arguments receiveWebhook {S} modules provider request callbacks.

(** ** Sample surroundings

    Concrete collaborators on which the statements below are exercised. The
    store is the list of rows the callbacks have persisted. *)

Definition sample_store : Type := list value.

(** A callback that persists its first argument. *)
Definition persist (row : value) : ext sample_store value :=
  fun s => (Ret VUndefined, (s ++ [row])%list).

(** A callback whose persistence fails. *)
Definition persist_fails : ext sample_store value :=
  fun s => (Throw (VError "Error" "upsert failed"), s).

Definition sample_callbacks : WebhookCallbacks sample_store :=
  mkCallbacks
    (fun sub _ => persist sub)
    (fun sub _ => persist sub)
    (fun id => persist (VString id))
    (fun id => persist (VString id))
    (fun id => persist (VString id)).

Definition failing_callbacks : WebhookCallbacks sample_store :=
  mkCallbacks
    (fun _ _ => persist_fails)
    (fun _ _ => persist_fails)
    (fun _ => persist_fails)
    (fun _ => persist_fails)
    (fun _ => persist_fails).

(** A verifier that trusts a request exactly when its [signature] header
    equals its body, and then yields a payload of the body's event type. *)
Definition sample_verify (request : Request) : ext sample_store value :=
  fun s =>
    match headers request with
    | [("signature", sig)] =>
        if sig =? body request
        then (Ret (VObject [("type", VString (body request));
                            ("object", VString "sub_1");
                            ("customer", VString "cus_1")]), s)
        else (Throw (VError "Error" "signature mismatch"), s)
    | _ => (Throw (VError "Error" "signature missing"), s)
    end.

(** A discrimination on the payload's [type], after the scenario of section
    8: [checkout.session.completed] is the one recognized type. *)
Definition sample_classify (payload : value) : option CanonicalBillingEvent :=
  match payload with
  | VObject fields =>
      match lookup_field "type" fields, lookup_field "customer" fields with
      | VString t, VString cid =>
          if t =? "checkout.session.completed"
          then Some (CheckoutCompleted (lookup_field "object" fields) cid)
          else None
      | _, _ => None
      end
  | _ => None
  end.

Definition sample_strategy : BillingWebhookHandlerService sample_store :=
  providerStrategy sample_verify sample_classify.

(** A module system in which the two provider packages are installed. *)
Definition sample_modules
  : loader sample_store (BillingWebhookHandlerService sample_store) :=
  fun specifier s =>
    if (specifier =? "@kit/stripe") || (specifier =? "@kit/lemon-squeezy")
    then (Ret (fun _ s' => (Ret sample_strategy, s')), s)
    else (Throw (VError "Error" ("Cannot find module '" ++ specifier ++ "'")), s).

(** A module system holding the postgres verifier service; a verifier is
    represented by the name of its class. *)
Definition sample_verifier_modules : loader sample_store string :=
  fun specifier s =>
    if specifier =? "./postgres-database-webhook-verifier.service"
    then (Ret (fun class s' => (Ret class, s')), s)
    else (Throw (VError "Error" ("Cannot find module '" ++ specifier ++ "'")), s).

(** A [config] table whose row yields the given [billing_provider]. *)
Definition config_row (billing_provider : value) : ext sample_store QueryResult :=
  fun s =>
    (Ret (mkQueryResult (VObject [("billing_provider", billing_provider)]) VNull), s).

(** A gateway service is represented by the provider it was created for. *)
Definition sample_gateway (provider : value) : ext sample_store value :=
  fun s => (Ret provider, s).

Definition empty_world : world sample_store := mkWorld [] [].

(** The requests and payloads of the scenarios of section 8. *)
Definition checkout_body : string := "checkout.session.completed".

Definition signed_request : Request :=
  mkRequest [("signature", checkout_body)] checkout_body.

Definition tampered_request : Request :=
  mkRequest [("signature", "checkout.session.complete")] checkout_body.

Definition checkout_payload : value :=
  VObject [("type", VString checkout_body);
           ("object", VString "sub_1");
           ("customer", VString "cus_1")].

Definition unknown_payload : value :=
  VObject [("type", VString "invoice.created");
           ("object", VString "in_1");
           ("customer", VString "cus_1")].

(** ** The request middleware *)

(** [try { c } catch (error) { handler }]. *)
Definition try_catch {S A} (c : M S A) (handler : value -> M S A) : M S A :=
  fun w =>
    match c w with
    | (Ret a, w') => (Ret a, w')
    | (Throw e, w') => handler e w'
    end.

(** [s.split(sep)[0]] for a one-character separator: the part of [s] before
    the first [sep], the whole of [s] when there is none. *)
Fixpoint split_head (sep : Ascii.ascii) (s : string) : string :=
  match s with
  | EmptyString => EmptyString
  | String c rest =>
      if Ascii.eqb c sep then EmptyString else String c (split_head sep rest)
  end.

(** A [Headers] object: names are kept in lower case, one entry per name. *)
Definition Headers : Type := list (string * string).

(** [headers.has(name)], for a lower-case [name]. *)
Definition headers_has (name : string) (h : Headers) : bool :=
  existsb (fun entry => fst entry =? name) h.

(** [headers.get(name)], for a lower-case [name]. *)
Definition headers_get (name : string) (h : Headers) : option string :=
  option_map snd (find (fun entry => fst entry =? name) h).

(** [headers.set(name, v)]: the entries of that name are replaced. *)
Definition headers_set (name v : string) (h : Headers) : Headers :=
  (filter (fun entry => negb (fst entry =? name)) h ++ [(name, v)])%list.

(** A [NextRequest], as far as the middleware and its collaborators read
    it: [pathname] and [origin] are those of [request.nextUrl]. *)
Record NextRequest : Type := mkNextRequest {
  method : string;
  url : string;
  pathname : string;
  origin : string;
  request_headers : Headers
}.

(** The responses the middleware builds: [NextResponse.next()],
    [NextResponse.json(body, { status })] and
    [NextResponse.redirect(new URL(target, base).href)]. *)
Inductive NextResponse : Type :=
| Next
| Json (body : string) (status : nat)
| Redirect (target base : string).

Definition is_redirect (r : NextResponse) : bool :=
  match r with
  | Redirect _ _ => true
  | _ => false
  end.

(** The options object handed to [createCsrfProtect]. *)
Record CsrfOptions : Type := mkCsrfOptions {
  cookie_secure : bool;
  cookie_name : string;
  ignoreMethods : list string
}.

(** What [await supabase.auth.getUser()] resolves to:
    [{ data: { user }, error }]. *)
Record UserResponse : Type := mkUserResponse {
  user : value;
  user_error : value
}.

(** [~/config/paths.config], as far as the middleware reads it. *)
Record PathsConfig : Type := mkPathsConfig {
  auth_signIn : string;
  auth_verifyMfa : string;
  app_home : string
}.

(** What the middleware imports: the configuration, [@edge-csrf/nextjs],
    the Supabase middleware client with its [auth.getUser], the MFA check,
    [crypto.randomUUID] and [URLPattern.exec] (on a pathname pattern and an
    input, [true] for a result that is not [null]). *)
Record Collaborators (S : Type) : Type := mkCollaborators {
  production : bool;
  pathsConfig : PathsConfig;
  createCsrfProtect : CsrfOptions -> NextRequest -> NextResponse -> ext S unit;
  auth_getUser : NextRequest -> NextResponse -> ext S UserResponse;
  checkRequiresMultiFactorAuthentication :
    NextRequest -> NextResponse -> ext S value;
  randomUUID : ext S string;
  urlPatternExec : string -> string -> bool
}.
Arguments production {S} _.
Arguments pathsConfig {S} _.
Arguments createCsrfProtect {S} _ _ _ _.
Arguments auth_getUser {S} _ _ _.
Arguments checkRequiresMultiFactorAuthentication {S} _ _ _.
Arguments randomUUID {S} _.
Arguments urlPatternExec {S} _ _ _.

Definition CSRF_SECRET_COOKIE : string := "csrfSecret".
Definition NEXT_ACTION_HEADER : string := "next-action".

(** [error instanceof CsrfError]: error objects are told apart by the name
    of their class. *)
Definition instanceof_CsrfError (e : value) : bool :=
  match e with
  | VError name _ => name =? "CsrfError"
  | _ => false
  end.

(** [v !== 'literal']. *)
Definition strict_neq_string (v : value) (literal : string) : bool :=
  match v with
  | VString s => negb (s =? literal)
  | _ => true
  end.

Definition get_user_call : event := ECall "supabase.auth.getUser" [].
Definition csrf_protect_call : event := ECall "csrfProtect" [].
Definition random_uuid_call : event := ECall "crypto.randomUUID" [].
Definition mfa_check_call : event :=
  ECall "checkRequiresMultiFactorAuthentication" [].

(** A handler of [getPatterns]: a response, or [undefined]. *)
Definition PatternHandler (S : Type) : Type :=
  NextRequest -> NextResponse -> M S (option NextResponse).

Section Middleware.

Variable S : Type.
Variable env : Collaborators S.

(** [getUser]. *)
Definition getUser (request : NextRequest) (response : NextResponse)
  : M S UserResponse :=
  perform get_user_call (auth_getUser env request response).

(** [isServerAction]. *)
Definition isServerAction (request : NextRequest) : bool :=
  headers_has NEXT_ACTION_HEADER (request_headers request).

(** The argument of [createCsrfProtect] in [withCsrfMiddleware]. *)
Definition csrfOptions (request : NextRequest) : CsrfOptions :=
  mkCsrfOptions (production env) CSRF_SECRET_COOKIE
    (if isServerAction request then ["POST"] else ["GET"; "HEAD"; "OPTIONS"]).

(** [withCsrfMiddleware]. *)
Definition withCsrfMiddleware (request : NextRequest) (response : NextResponse)
  : M S NextResponse :=
  let csrfProtect := createCsrfProtect env (csrfOptions request) in
  try_catch
    (_ <- perform csrf_protect_call (csrfProtect request response) ;;
     ret response)
    (fun error =>
       if instanceof_CsrfError error
       then ret (Json "Invalid CSRF token" 401)
       else throw error).

(** [adminMiddleware]. *)
Definition adminMiddleware : PatternHandler S :=
  fun request response =>
    let isAdminPath := prefix "/admin" (pathname request) in
    if negb isAdminPath then ret (Some response)
    else
      r <- getUser request response ;;
      if negb (truthy (user r)) || truthy (user_error r) then
        ret (Some (Redirect (auth_signIn (pathsConfig env)) (origin request)))
      else
        role <- (if nullish (user r) then ret VUndefined
                 else app_metadata <- get_prop (user r) "app_metadata" ;;
                      get_prop app_metadata "role") ;;
        if negb (truthy role) || strict_neq_string role "super-admin" then
          ret (Some (Redirect "/404" (origin request)))
        else ret (Some response).

(** The handler of the [/auth*] pattern. *)
Definition authHandler : PatternHandler S :=
  fun req res =>
    r <- getUser req res ;;
    if negb (truthy (user r)) then ret None
    else
      let isVerifyMfa := pathname req =? auth_verifyMfa (pathsConfig env) in
      if negb isVerifyMfa then
        ret (Some (Redirect (app_home (pathsConfig env)) (origin req)))
      else ret None.

(** The handler of the [/home*] pattern. *)
Definition homeHandler : PatternHandler S :=
  fun req res =>
    r <- getUser req res ;;
    let origin := origin req in
    let next := pathname req in
    if negb (truthy (user r)) then
      let signIn := auth_signIn (pathsConfig env) in
      let redirectPath := signIn ++ "?next=" ++ next in
      ret (Some (Redirect redirectPath origin))
    else
      requiresMultiFactorAuthentication <-
        perform mfa_check_call
          (checkRequiresMultiFactorAuthentication env req res) ;;
      if truthy requiresMultiFactorAuthentication then
        ret (Some (Redirect (auth_verifyMfa (pathsConfig env)) origin))
      else ret None.

(** [getPatterns]: each [URLPattern] by its pathname pattern. *)
Definition getPatterns : list (string * PatternHandler S) :=
  [("/admin*", adminMiddleware);
   ("/auth*", authHandler);
   ("/home*", homeHandler)].

(** [matchUrlPattern]: the handler of the first pattern that matches. *)
Definition matchUrlPattern (url : string) : option (PatternHandler S) :=
  let input := split_head "?"%char url in
  option_map snd
    (find (fun pattern => urlPatternExec env (fst pattern) input) getPatterns).

(** [setRequestId]: the request after the update of its headers. *)
Definition setRequestId (request : NextRequest) : M S NextRequest :=
  id <- perform random_uuid_call (randomUUID env) ;;
  ret (mkNextRequest (method request) (url request) (pathname request)
         (origin request)
         (headers_set "x-correlation-id" id (request_headers request))).

(** [middleware]. *)
Definition middleware (request : NextRequest) : M S NextResponse :=
  let response := Next in
  request <- setRequestId request ;;
  csrfResponse <- withCsrfMiddleware request response ;;
  match matchUrlPattern (url request) with
  | Some handlePattern =>
      patternHandlerResponse <- handlePattern request csrfResponse ;;
      match patternHandlerResponse with
      | Some r => ret r
      | None => ret csrfResponse
      end
  | None => ret csrfResponse
  end.

End Middleware.

Arguments getUser {S} env request response.
Arguments csrfOptions {S} env request.
Arguments withCsrfMiddleware {S} env request response.
Arguments adminMiddleware {S} env.
Arguments authHandler {S} env.
Arguments homeHandler {S} env.
Arguments getPatterns {S} env.
Arguments matchUrlPattern {S} env url.
Arguments setRequestId {S} env request.
Arguments middleware {S} env request.

(** The users [adminMiddleware] lets through: an object whose
    [app_metadata] is an object with the [role] 'super-admin'. *)
Definition is_super_admin (u : value) : bool :=
  match u with
  | VObject user_fields =>
      match lookup_field "app_metadata" user_fields with
      | VObject metadata =>
          match lookup_field "role" metadata with
          | VString role => role =? "super-admin"
          | _ => false
          end
      | _ => false
      end
  | _ => false
  end.

(** The request as [setRequestId] leaves it, for the identifier drawn. *)
Definition with_request_id (id : string) (request : NextRequest) : NextRequest :=
  mkNextRequest (method request) (url request) (pathname request)
    (origin request)
    (headers_set "x-correlation-id" id (request_headers request)).

(** ** update-member-role-dialog.tsx *)

Section UpdateMemberForm.

Variable S : Type.

(** The server action and the two state setters of the form. *)
Variable updateMemberRoleAction : string -> string -> string -> ext S value.
Variable setIsOpen : bool -> ext S unit.
Variable setError : bool -> ext S unit.

Definition update_member_role_call (accountId userId role : string) : event :=
  ECall "updateMemberRoleAction"
    [VObject [("accountId", VString accountId);
              ("userId", VString userId);
              ("role", VString role)]].

(** The [async] function [onSubmit] hands to [startTransition], for the
    [accountId] and [userId] of the form. *)
Definition onSubmit (accountId userId role : string) : M S unit :=
  try_catch
    (_ <- perform (update_member_role_call accountId userId role)
            (updateMemberRoleAction accountId userId role) ;;
     perform (ECall "setIsOpen" [VBool false]) (setIsOpen false))
    (fun e => perform (ECall "setError" [VBool true]) (setError true)).

End UpdateMemberForm.

Arguments onSubmit {S} updateMemberRoleAction setIsOpen setError
  accountId userId role.

(** ** Sample surroundings of the middleware *)

Definition sample_paths : PathsConfig :=
  mkPathsConfig "/auth/sign-in" "/auth/verify" "/home".

(** The part of a string from the first [sep] on. *)
Fixpoint drop_until (sep : Ascii.ascii) (s : string) : string :=
  match s with
  | EmptyString => EmptyString
  | String c rest => if Ascii.eqb c sep then s else drop_until sep rest
  end.

(** The path of an absolute URL: what follows [scheme://host]. *)
Definition url_path (u : string) : string :=
  match drop_until "/"%char u with
  | String _ (String _ after_slashes) => drop_until "/"%char after_slashes
  | _ => EmptyString
  end.

(** A pattern [stem*] matches the URLs whose path starts with [stem]. *)
Definition sample_exec (pattern input : string) : bool :=
  prefix (split_head "*"%char pattern) (url_path input).

(** A CSRF check that lets the ignored methods through and otherwise wants
    the header [x-csrf-token: valid]. *)
Definition sample_csrf (options : CsrfOptions) (request : NextRequest)
  (_ : NextResponse) : ext sample_store unit :=
  fun s =>
    if existsb (String.eqb (method request)) (ignoreMethods options)
    then (Ret tt, s)
    else match headers_get "x-csrf-token" (request_headers request) with
         | Some "valid" => (Ret tt, s)
         | _ => (Throw (VError "CsrfError" "csrf validation error"), s)
         end.

Definition user_with_role (role : string) : value :=
  VObject [("id", VString "u1");
           ("app_metadata", VObject [("role", VString role)])].

(** Sessions are read off the header [session]. *)
Definition sample_getUser (request : NextRequest) (_ : NextResponse)
  : ext sample_store UserResponse :=
  fun s =>
    match headers_get "session" (request_headers request) with
    | Some role => (Ret (mkUserResponse (user_with_role role) VNull), s)
    | None =>
        (Ret (mkUserResponse VNull
                (VError "AuthSessionMissingError" "Auth session missing!")), s)
    end.

Definition sample_mfa (request : NextRequest) (_ : NextResponse)
  : ext sample_store value :=
  fun s =>
    match headers_get "mfa" (request_headers request) with
    | Some "required" => (Ret (VBool true), s)
    | _ => (Ret (VBool false), s)
    end.

Definition sample_uuid : string := "3b241101-e2bb-4255-8caf-4136c566a962".

Definition sample_env : Collaborators sample_store :=
  mkCollaborators sample_store false sample_paths sample_csrf sample_getUser
    sample_mfa (fun s => (Ret sample_uuid, s)) sample_exec.

Definition sample_request (method path : string) (h : Headers) : NextRequest :=
  mkNextRequest method ("https://app.test" ++ path) path "https://app.test" h.

(** The same surroundings with a CSRF check that breaks down. *)
Definition broken_csrf_env : Collaborators sample_store :=
  mkCollaborators sample_store false sample_paths
    (fun _ _ _ s => (Throw (VError "TypeError" "fetch failed"), s))
    sample_getUser sample_mfa (fun s => (Ret sample_uuid, s)) sample_exec.

(** A server action and setters that record what the form shows. *)
Definition sample_action (accountId userId role : string)
  : ext sample_store value :=
  fun s =>
    if role =? "owner"
    then (Throw (VError "Error" "forbidden"), s)
    else (Ret VUndefined, (s ++ [VString role])%list).

Definition sample_setter (name : string) (b : bool) : ext sample_store unit :=
  fun s => (Ret tt, (s ++ [VObject [(name, VBool b)]])%list).

(** * Properties *)

(** ** Running the monad *)

Lemma perform_run {S A} (ev : event) (f : ext S A) (w : world S) r s' :
  f (store w) = (r, s') ->
  perform ev f w = (r, mkWorld (log w ++ [ev]) s').
Proof. intros Hf. unfold perform. rewrite Hf. reflexivity. Qed.

Lemma lift_run {S A} (f : ext S A) (w : world S) r s' :
  f (store w) = (r, s') ->
  lift f w = (r, mkWorld (log w) s').
Proof. intros Hf. unfold lift. rewrite Hf. reflexivity. Qed.

Lemma bind_ret_run {S A B} (c : M S A) (k : A -> M S B) w a w' :
  c w = (Ret a, w') -> (x <- c ;; k x) w = k a w'.
Proof. intros Hc. cbn. unfold bind_M. rewrite Hc. reflexivity. Qed.

Lemma bind_throw_run {S A B} (c : M S A) (k : A -> M S B) w e w' :
  c w = (Throw e, w') -> (x <- c ;; k x) w = (Throw e, w').
Proof. intros Hc. cbn. unfold bind_M. rewrite Hc. reflexivity. Qed.

Lemma fired_app name (l1 l2 : list event) :
  fired name (l1 ++ l2) = fired name l1 + fired name l2.
Proof. unfold fired. rewrite filter_app, length_app. reflexivity. Qed.

Lemma fired_cons name (ev : event) (l : list event) :
  fired name (ev :: l) = (if is_callback name ev then 1 else 0) + fired name l.
Proof.
  unfold fired. cbn [filter]. destruct (is_callback name ev); reflexivity.
Qed.

Lemma fired_nil name : fired name [] = 0.
Proof. reflexivity. Qed.

Lemma eqb_neq_false (a b : string) : a <> b -> (a =? b) = false.
Proof. intros H. apply String.eqb_neq. exact H. Qed.

(** ** The billing event handler factory *)

Section FactoryFacts.

Variable S : Type.
Variable modules : loader S (BillingWebhookHandlerService S).

(** The two loading branches of the [switch], under a module system in which
    the import and the constructor return. *)
Lemma GetProviderStrategy_loads provider specifier class
  (w : world S) ns h s1 s2 :
  In (provider, specifier, class)
     [("stripe", "@kit/stripe", "StripeWebhookHandlerService");
      ("lemon-squeezy", "@kit/lemon-squeezy",
       "LemonSqueezyWebhookHandlerService")] ->
  modules specifier (store w) = (Ret ns, s1) ->
  ns class s1 = (Ret h, s2) ->
  GetProviderStrategy modules provider w =
    (Ret h, mkWorld (log w ++ [EImport specifier; ENew class]) s2).
Proof.
  intros Hin Himport Hnew.
  assert (Hrun :
    (ns' <- import_ modules specifier ;; new_ ns' class) w =
    (Ret h, mkWorld (log w ++ [EImport specifier; ENew class]) s2)).
  { rewrite (bind_ret_run _ _ w ns (mkWorld (log w ++ [EImport specifier]) s1)).
    - unfold new_. rewrite (perform_run _ _ _ (Ret h) s2) by exact Hnew.
      cbn. rewrite <- app_assoc. reflexivity.
    - unfold import_. apply perform_run. exact Himport. }
  destruct Hin as [Heq | [Heq | []]]; inversion Heq; subst; exact Hrun.
Qed.

(** C1. For every provider identifier outside the known set "stripe",
    "lemon-squeezy", "paddle", [GetProviderStrategy] rejects with the error
    "Unsupported billing provider: <identifier>" (the unsupported-provider
    error of the code, an [Error] with that message) and leaves the world as
    it found it: no provider module is imported and no handler is
    constructed, so no verifier or normalizer is reached. *)
Theorem GetProviderStrategy_unknown_provider (provider : string) (w : world S) :
  ~ In provider ["stripe"; "lemon-squeezy"; "paddle"] ->
  GetProviderStrategy modules provider w =
    (Throw (VError "Error" ("Unsupported billing provider: " ++ provider)), w).
Proof.
  intros Hnot. unfold GetProviderStrategy.
  rewrite !eqb_neq_false; [reflexivity | | | ];
    intros ->; apply Hnot; simpl; auto.
Qed.

(** C2. For the identifier "paddle", [GetProviderStrategy] rejects at once
    with the error "Paddle is not supported yet" (the not-implemented error
    of the code), whatever the module system holds: the world is unchanged,
    no module was imported and no strategy constructed. *)
Theorem GetProviderStrategy_paddle (w : world S) :
  GetProviderStrategy modules "paddle" w =
    (Throw (VError "Error" "Paddle is not supported yet"), w).
Proof. reflexivity. Qed.

(** C3. For "stripe" and for "lemon-squeezy", when the provider's package
    loads and its handler class constructs, [GetProviderStrategy] resolves
    with that instance, a [BillingWebhookHandlerService] (verifier and event
    handler); the call imports the module of the selected provider only, on
    demand, and constructs that one class: the other provider's package is
    not touched. *)
Theorem GetProviderStrategy_supported (w : world S) :
  (forall ns h s1 s2,
      modules "@kit/stripe" (store w) = (Ret ns, s1) ->
      ns "StripeWebhookHandlerService" s1 = (Ret h, s2) ->
      GetProviderStrategy modules "stripe" w =
        (Ret h,
         mkWorld (log w ++ [EImport "@kit/stripe";
                            ENew "StripeWebhookHandlerService"]) s2))
  /\
  (forall ns h s1 s2,
      modules "@kit/lemon-squeezy" (store w) = (Ret ns, s1) ->
      ns "LemonSqueezyWebhookHandlerService" s1 = (Ret h, s2) ->
      GetProviderStrategy modules "lemon-squeezy" w =
        (Ret h,
         mkWorld (log w ++ [EImport "@kit/lemon-squeezy";
                            ENew "LemonSqueezyWebhookHandlerService"]) s2)).
Proof.
  split; intros ns h s1 s2 Himport Hnew;
    eapply GetProviderStrategy_loads; eauto; simpl; auto.
Qed.

End FactoryFacts.

Lemma GetProviderStrategy_unknown_provider_witness :
  ~ In "chargebee" ["stripe"; "lemon-squeezy"; "paddle"] /\
  GetProviderStrategy sample_modules "chargebee" empty_world =
    (Throw (VError "Error" "Unsupported billing provider: chargebee"),
     empty_world).
Proof.
  assert (H : ~ In "chargebee" ["stripe"; "lemon-squeezy"; "paddle"]).
  { simpl. intros [H | [H | [H | []]]]; discriminate H. }
  split.
  - exact H.
  - exact (GetProviderStrategy_unknown_provider
             sample_store sample_modules "chargebee" empty_world H).
Defined.

Lemma GetProviderStrategy_supported_witness :
  GetProviderStrategy sample_modules "stripe" empty_world =
    (Ret sample_strategy,
     mkWorld [EImport "@kit/stripe"; ENew "StripeWebhookHandlerService"] [])
  /\
  GetProviderStrategy sample_modules "lemon-squeezy" empty_world =
    (Ret sample_strategy,
     mkWorld [EImport "@kit/lemon-squeezy";
              ENew "LemonSqueezyWebhookHandlerService"] []).
Proof.
  destruct (GetProviderStrategy_supported sample_store sample_modules empty_world)
    as [Hstripe Hlemon].
  split.
  - apply (Hstripe (fun _ s' => (Ret sample_strategy, s')) sample_strategy [] []);
      reflexivity.
  - apply (Hlemon (fun _ s' => (Ret sample_strategy, s')) sample_strategy [] []);
      reflexivity.
Defined.

(** ** The billing gateway provider lookup *)

Section BillingGatewayProviderFacts.

Variable S : Type.
Variable Gateway : Type.
Variable createBillingGatewayService : value -> ext S Gateway.

(** A lookup that fails fails the gateway provider with the same value and
    in the same world: [createBillingGatewayService] is not reached. *)
Lemma getBillingGatewayProvider_lookup_fails
  (client : ext S QueryResult) (w w1 : world S) e :
  getBillingProvider client w = (Throw e, w1) ->
  getBillingGatewayProvider createBillingGatewayService client w = (Throw e, w1).
Proof.
  intros Hlookup. unfold getBillingGatewayProvider.
  apply bind_throw_run. exact Hlookup.
Qed.

(** A query error (a non-nullish, truthy [error]) is thrown as it is, and
    [data] is not read. *)
Lemma getBillingProvider_query_error
  (client : ext S QueryResult) (w : world S) r s1 :
  client (store w) = (Ret r, s1) ->
  nullish (error r) = false ->
  truthy (error r) = true ->
  getBillingProvider client w =
    (Throw (error r), mkWorld (log w ++ [config_query]) s1).
Proof.
  intros Hquery Hnullish Htruthy. unfold getBillingProvider.
  rewrite (bind_ret_run _ _ w r (mkWorld (log w ++ [config_query]) s1))
    by (apply perform_run; exact Hquery).
  rewrite Hnullish. cbn. unfold bind_M, ret_M. rewrite Htruthy. reflexivity.
Qed.

(** A row with a provider is returned. *)
Lemma getBillingProvider_found
  (client : ext S QueryResult) (w : world S) fields err s1 :
  client (store w) = (Ret (mkQueryResult (VObject fields) err), s1) ->
  nullish err = true ->
  truthy (lookup_field "billing_provider" fields) = true ->
  getBillingProvider client w =
    (Ret (lookup_field "billing_provider" fields),
     mkWorld (log w ++ [config_query]) s1).
Proof.
  intros Hquery Hnullish Htruthy. unfold getBillingProvider.
  rewrite (bind_ret_run _ _ w (mkQueryResult (VObject fields) err)
             (mkWorld (log w ++ [config_query]) s1))
    by (apply perform_run; exact Hquery).
  cbn. rewrite Hnullish. cbn. unfold bind_M, ret_M. cbn.
  rewrite Htruthy. reflexivity.
Qed.

(** C10. When the query of the [config] row returns without a query error
    (its [error] is nullish, [null] for this client) and the row's
    [billing_provider] is falsy (null, undefined or the empty string),
    [getBillingProvider] throws the query's [error] value itself: the thrown
    value is that nullish value, not an error object, and so carries no
    message. *)
Theorem getBillingProvider_throws_null_error
  (client : ext S QueryResult) (w : world S) fields err s1 :
  client (store w) = (Ret (mkQueryResult (VObject fields) err), s1) ->
  nullish err = true ->
  truthy (lookup_field "billing_provider" fields) = false ->
  getBillingProvider client w =
    (Throw err, mkWorld (log w ++ [config_query]) s1)
  /\ is_error_object err = false
  /\ (err = VNull -> getBillingProvider client w =
                       (Throw VNull, mkWorld (log w ++ [config_query]) s1)).
Proof.
  intros Hquery Hnullish Hfalsy.
  assert (Hrun : getBillingProvider client w =
                 (Throw err, mkWorld (log w ++ [config_query]) s1)).
  { unfold getBillingProvider.
    rewrite (bind_ret_run _ _ w (mkQueryResult (VObject fields) err)
               (mkWorld (log w ++ [config_query]) s1))
      by (apply perform_run; exact Hquery).
    cbn. rewrite Hnullish. cbn. unfold bind_M, ret_M. cbn.
    rewrite Hfalsy. reflexivity. }
  split; [exact Hrun | split].
  - destruct err; try discriminate Hnullish; reflexivity.
  - intros ->. exact Hrun.
Qed.

End BillingGatewayProviderFacts.

Lemma getBillingProvider_throws_null_error_witness :
  getBillingProvider (config_row (VString "")) empty_world =
    (Throw VNull, mkWorld [config_query] [])
  /\ is_error_object VNull = false.
Proof.
  destruct (getBillingProvider_throws_null_error sample_store
              (config_row (VString "")) empty_world
              [("billing_provider", VString "")] VNull []
              eq_refl eq_refl eq_refl) as [Hrun [Hnot _]].
  split; [exact Hrun | exact Hnot].
Defined.

(** C4, at a [config] row without a provider: the row is read without a
    query error and its [billing_provider] is [null]. The gateway provider
    rejects before [createBillingGatewayService] is reached (the log holds
    the query alone), but the rejection value is [null], which is no error
    object: no configuration error is raised. *)
Theorem getBillingGatewayProvider_missing_provider_rejects_with_null :
  getBillingGatewayProvider sample_gateway (config_row VNull) empty_world =
    (Throw VNull, mkWorld [config_query] [])
  /\ is_error_object VNull = false.
Proof. split; reflexivity. Qed.

(** ** The database webhook verifier *)

Section DatabaseWebhookVerifierFacts.

Variable S : Type.
Variable Verifier : Type.
Variable modules : loader S Verifier.

(** C5. With [WEBHOOK_SENDER_PROVIDER] unset, [getDatabaseWebhookVerifier]
    imports the postgres verifier service and returns a new
    [PostgresDatabaseWebhookVerifierService] (when that file loads and the
    class constructs); with any value other than "postgres" it throws
    the error "Invalid WEBHOOK_SENDER_PROVIDER: <value>", imports nothing,
    constructs nothing and returns no verifier. *)
Theorem getDatabaseWebhookVerifier_selection (w : world S) :
  (forall ns v s1 s2,
      modules "./postgres-database-webhook-verifier.service" (store w)
        = (Ret ns, s1) ->
      ns "PostgresDatabaseWebhookVerifierService" s1 = (Ret v, s2) ->
      getDatabaseWebhookVerifier modules None w =
        (Ret v,
         mkWorld (log w ++ [EImport "./postgres-database-webhook-verifier.service";
                            ENew "PostgresDatabaseWebhookVerifierService"]) s2))
  /\
  (forall configured,
      configured <> "postgres" ->
      getDatabaseWebhookVerifier modules (Some configured) w =
        (Throw (VError "Error" ("Invalid WEBHOOK_SENDER_PROVIDER: " ++ configured)),
         w)).
Proof.
  split.
  - intros ns v s1 s2 Himport Hnew. unfold getDatabaseWebhookVerifier.
    cbn [WEBHOOK_SENDER_PROVIDER]. change ("postgres" =? "postgres") with true.
    cbv iota.
    rewrite (bind_ret_run _ _ w ns
               (mkWorld (log w ++ [EImport "./postgres-database-webhook-verifier.service"]) s1))
      by (apply perform_run; exact Himport).
    unfold new_. rewrite (perform_run _ _ _ (Ret v) s2) by exact Hnew.
    cbn. rewrite <- app_assoc. reflexivity.
  - intros configured Hneq. unfold getDatabaseWebhookVerifier.
    cbn [WEBHOOK_SENDER_PROVIDER]. rewrite (eqb_neq_false _ _ Hneq).
    reflexivity.
Qed.

End DatabaseWebhookVerifierFacts.

Lemma getDatabaseWebhookVerifier_selection_witness :
  getDatabaseWebhookVerifier sample_verifier_modules None empty_world =
    (Ret "PostgresDatabaseWebhookVerifierService",
     mkWorld [EImport "./postgres-database-webhook-verifier.service";
              ENew "PostgresDatabaseWebhookVerifierService"] [])
  /\
  getDatabaseWebhookVerifier sample_verifier_modules (Some "mysql") empty_world =
    (Throw (VError "Error" "Invalid WEBHOOK_SENDER_PROVIDER: mysql"), empty_world).
Proof.
  destruct (getDatabaseWebhookVerifier_selection sample_store string
              sample_verifier_modules empty_world) as [Hunset Hother].
  split.
  - apply (Hunset (fun class s' => (Ret class, s'))
                  "PostgresDatabaseWebhookVerifierService" [] []);
      reflexivity.
  - apply (Hother "mysql"). discriminate.
Defined.

(** ** The webhook dispatch pipeline *)

Section DispatchFacts.

Variable S : Type.
Variable verify : Request -> ext S value.
Variable classify : value -> option CanonicalBillingEvent.

(** A recognized payload: the normalizer runs, then the callback selected by
    the event runs once on the store the handler was entered with. *)
Lemma normalizeAndDispatch_recognized payload callbacks ev (w : world S) :
  classify payload = Some ev ->
  normalizeAndDispatch classify payload callbacks w =
    (settle (fst (callback_of callbacks ev (store w))),
     mkWorld (log w ++ [ENormalize payload; callback_event ev])
             (snd (callback_of callbacks ev (store w)))).
Proof.
  intros Hclass. unfold normalizeAndDispatch.
  rewrite (bind_ret_run _ _ w (Some ev)
             (mkWorld (log w ++ [ENormalize payload]) (store w)))
    by (apply perform_run; rewrite Hclass; reflexivity).
  cbn. unfold bind_M, perform. cbn.
  destruct (callback_of callbacks ev (store w)) as [[v | e] s1]; cbn;
    rewrite <- app_assoc; reflexivity.
Qed.

(** An unrecognized payload: the normalizer runs and nothing else does. *)
Lemma normalizeAndDispatch_unrecognized payload callbacks (w : world S) :
  classify payload = None ->
  normalizeAndDispatch classify payload callbacks w =
    (Ret VUndefined, mkWorld (log w ++ [ENormalize payload]) (store w)).
Proof.
  intros Hclass. unfold normalizeAndDispatch.
  rewrite (bind_ret_run _ _ w None
             (mkWorld (log w ++ [ENormalize payload]) (store w)))
    by (apply perform_run; rewrite Hclass; reflexivity).
  reflexivity.
Qed.

(** C6. If the verifier of a strategy throws on a request, whatever the
    strategy's handler and whatever the callbacks, the dispatch rejects with
    the verifier's error in the world the verifier left: the log is the log
    before the dispatch, so no normalization ran, no canonical event was
    built and no callback was invoked. *)
Theorem dispatchWebhook_short_circuits_on_rejected_signature
  (strategy : BillingWebhookHandlerService S) (request : Request)
  (callbacks : WebhookCallbacks S) (w : world S) e s1 :
  verifyWebhookSignature strategy request (store w) = (Throw e, s1) ->
  dispatchWebhook strategy request callbacks w = (Throw e, mkWorld (log w) s1)
  /\ filter is_normalize (log (snd (dispatchWebhook strategy request callbacks w)))
     = filter is_normalize (log w)
  /\ forall name,
       fired name (log (snd (dispatchWebhook strategy request callbacks w)))
       = fired name (log w).
Proof.
  intros Hverify.
  assert (Hrun : dispatchWebhook strategy request callbacks w =
                 (Throw e, mkWorld (log w) s1)).
  { unfold dispatchWebhook. apply bind_throw_run. apply lift_run. exact Hverify. }
  rewrite Hrun. cbn. auto.
Qed.

(** C7. A payload the normalizer classifies as checkout completed, with
    subscription-or-order [sub] and customer [cid]: the handler invokes
    [onCheckoutSessionCompleted] on [(sub, cid)], once (the store is the one
    a single run of the callback leaves, and the log gains that one
    invocation after the normalization), and the count of every other
    callback is unchanged. *)
Theorem handleWebhookEvent_checkout_completed
  payload (callbacks : WebhookCallbacks S) sub cid (w : world S) :
  classify payload = Some (CheckoutCompleted sub cid) ->
  let run := handleWebhookEvent (providerStrategy verify classify)
               payload callbacks w in
  let once := onCheckoutSessionCompleted callbacks sub cid (store w) in
  run = (settle (fst once),
         mkWorld (log w ++ [ENormalize payload;
                            ECallback "onCheckoutSessionCompleted"
                              [sub; VString cid]])
                 (snd once))
  /\ forall name,
       fired name (log (snd run)) =
       fired name (log w)
       + (if name =? "onCheckoutSessionCompleted" then 1 else 0).
Proof.
  intros Hclass run once.
  assert (Hrun : run =
    (settle (fst once),
     mkWorld (log w ++ [ENormalize payload;
                        ECallback "onCheckoutSessionCompleted" [sub; VString cid]])
             (snd once))).
  { subst run once. cbn [handleWebhookEvent providerStrategy].
    rewrite (normalizeAndDispatch_recognized _ _ _ _ Hclass). reflexivity. }
  split; [exact Hrun |].
  intros name. rewrite Hrun. cbn [snd log].
  rewrite fired_app, !fired_cons, fired_nil. cbn [is_callback].
  rewrite String.eqb_sym. destruct (name =? "onCheckoutSessionCompleted");
    reflexivity.
Qed.

(** C8. A payload of an event type the normalizer does not recognize: the
    handler resolves (it does not throw), the callers' store is untouched
    and no callback is invoked, the log gaining the normalization alone. *)
Theorem handleWebhookEvent_unrecognized_event
  payload (callbacks : WebhookCallbacks S) (w : world S) :
  classify payload = None ->
  let run := handleWebhookEvent (providerStrategy verify classify)
               payload callbacks w in
  run = (Ret VUndefined, mkWorld (log w ++ [ENormalize payload]) (store w))
  /\ forall name, fired name (log (snd run)) = fired name (log w).
Proof.
  intros Hclass run.
  assert (Hrun : run =
    (Ret VUndefined, mkWorld (log w ++ [ENormalize payload]) (store w))).
  { subst run. cbn [handleWebhookEvent providerStrategy].
    apply normalizeAndDispatch_unrecognized. exact Hclass. }
  split; [exact Hrun |].
  intros name. rewrite Hrun. cbn [snd log].
  rewrite fired_app, fired_cons, fired_nil. cbn [is_callback].
  apply PeanoNat.Nat.add_0_r.
Qed.

(** C9. For every canonical event, hence every callback of the set: if the
    callback the event selects rejects with [e], the handler rejects with
    the same [e]. *)
Theorem handleWebhookEvent_propagates_callback_error
  payload (callbacks : WebhookCallbacks S) ev (w : world S) e s1 :
  classify payload = Some ev ->
  callback_of callbacks ev (store w) = (Throw e, s1) ->
  handleWebhookEvent (providerStrategy verify classify) payload callbacks w =
    (Throw e, mkWorld (log w ++ [ENormalize payload; callback_event ev]) s1).
Proof.
  intros Hclass Hthrow. cbn [handleWebhookEvent providerStrategy].
  rewrite (normalizeAndDispatch_recognized _ _ _ _ Hclass), Hthrow.
  reflexivity.
Qed.

End DispatchFacts.

(** An unknown provider stops the whole pipeline at the resolver: neither
    the verifier nor the handler of any strategy is reached. *)
Lemma receiveWebhook_unknown_provider {S}
  (modules : loader S (BillingWebhookHandlerService S))
  (provider : string) (request : Request) (callbacks : WebhookCallbacks S)
  (w : world S) :
  ~ In provider ["stripe"; "lemon-squeezy"; "paddle"] ->
  receiveWebhook modules provider request callbacks w =
    (Throw (VError "Error" ("Unsupported billing provider: " ++ provider)), w).
Proof.
  intros Hnot. unfold receiveWebhook. apply bind_throw_run.
  unfold GetProviderStrategy.
  rewrite !eqb_neq_false; [reflexivity | | | ];
    intros ->; apply Hnot; simpl; auto.
Qed.

(** *** The scenarios of the design document on the sample surroundings *)

(** A correctly signed checkout through the whole pipeline: the strategy is
    loaded, the callback runs once and the dispatch resolves. *)
Example receiveWebhook_signed_checkout :
  receiveWebhook sample_modules "stripe" signed_request sample_callbacks
    empty_world =
    (Ret VUndefined,
     mkWorld [EImport "@kit/stripe"; ENew "StripeWebhookHandlerService";
              ENormalize checkout_payload;
              ECallback "onCheckoutSessionCompleted"
                [VString "sub_1"; VString "cus_1"]]
             [VString "sub_1"]).
Proof. reflexivity. Qed.

(** The same request with its signature cut by one character. *)
Example receiveWebhook_tampered_checkout :
  receiveWebhook sample_modules "stripe" tampered_request sample_callbacks
    empty_world =
    (Throw (VError "Error" "signature mismatch"),
     mkWorld [EImport "@kit/stripe"; ENew "StripeWebhookHandlerService"] []).
Proof. reflexivity. Qed.

Lemma dispatchWebhook_short_circuits_on_rejected_signature_witness :
  dispatchWebhook sample_strategy tampered_request sample_callbacks empty_world
    = (Throw (VError "Error" "signature mismatch"), empty_world).
Proof.
  exact (proj1 (dispatchWebhook_short_circuits_on_rejected_signature
                  sample_store sample_strategy tampered_request
                  sample_callbacks empty_world
                  (VError "Error" "signature mismatch") [] eq_refl)).
Defined.

Lemma handleWebhookEvent_checkout_completed_witness :
  handleWebhookEvent sample_strategy checkout_payload sample_callbacks
    empty_world =
    (Ret VUndefined,
     mkWorld [ENormalize checkout_payload;
              ECallback "onCheckoutSessionCompleted"
                [VString "sub_1"; VString "cus_1"]]
             [VString "sub_1"])
  /\ fired "onCheckoutSessionCompleted"
       (log (snd (handleWebhookEvent sample_strategy checkout_payload
                    sample_callbacks empty_world))) = 1
  /\ fired "onSubscriptionUpdated"
       (log (snd (handleWebhookEvent sample_strategy checkout_payload
                    sample_callbacks empty_world))) = 0.
Proof.
  destruct (handleWebhookEvent_checkout_completed sample_store sample_verify
              sample_classify checkout_payload sample_callbacks
              (VString "sub_1") "cus_1" empty_world eq_refl)
    as [Hrun Hcount].
  split; [exact Hrun | split].
  - exact (Hcount "onCheckoutSessionCompleted").
  - exact (Hcount "onSubscriptionUpdated").
Defined.

Lemma handleWebhookEvent_unrecognized_event_witness :
  handleWebhookEvent sample_strategy unknown_payload sample_callbacks
    empty_world =
    (Ret VUndefined, mkWorld [ENormalize unknown_payload] [])
  /\ fired "onCheckoutSessionCompleted"
       (log (snd (handleWebhookEvent sample_strategy unknown_payload
                    sample_callbacks empty_world))) = 0.
Proof.
  destruct (handleWebhookEvent_unrecognized_event sample_store sample_verify
              sample_classify unknown_payload sample_callbacks empty_world
              eq_refl)
    as [Hrun Hcount].
  split; [exact Hrun | exact (Hcount "onCheckoutSessionCompleted")].
Defined.

Lemma handleWebhookEvent_propagates_callback_error_witness :
  handleWebhookEvent sample_strategy checkout_payload failing_callbacks
    empty_world =
    (Throw (VError "Error" "upsert failed"),
     mkWorld [ENormalize checkout_payload;
              ECallback "onCheckoutSessionCompleted"
                [VString "sub_1"; VString "cus_1"]]
             []).
Proof.
  exact (handleWebhookEvent_propagates_callback_error sample_store
           sample_verify sample_classify checkout_payload failing_callbacks
           (CheckoutCompleted (VString "sub_1") "cus_1") empty_world
           (VError "Error" "upsert failed") [] eq_refl eq_refl).
Defined.

(** * Further properties of the embedded code *)

(** ** The billing gateway provider lookup, continued *)

Section BillingGatewayProviderMore.

Variable S : Type.
Variable Gateway : Type.
Variable createBillingGatewayService : value -> ext S Gateway.

(** X1. [getBillingProvider] sends the [config] query once and does nothing
    else to its surroundings, however the query ends. *)
Theorem getBillingProvider_queries_once (client : ext S QueryResult)
  (w : world S) :
  snd (getBillingProvider client w) =
    mkWorld (log w ++ [config_query]) (snd (client (store w))).
Proof.
  unfold getBillingProvider. cbn. unfold bind_M, perform, ret_M, throw.
  destruct (client (store w)) as [[r | e] s1]; [| reflexivity].
  cbn. destruct (nullish (error r)).
  - destruct (data r); cbn; try reflexivity;
      match goal with
      | |- context [truthy ?v] => destruct (truthy v); reflexivity
      end.
  - cbn. destruct (truthy (error r)); [reflexivity |].
    destruct (data r); reflexivity.
Qed.

(** X2. With a client that reports its failures in [error] as [null] or as an
    object (never a falsy value that is not nullish), a provider that
    [getBillingProvider] returns is truthy: neither [null], [undefined] nor
    the empty string is ever handed on. *)
Theorem getBillingProvider_result_truthy (client : ext S QueryResult)
  (w w' : world S) (p : value) :
  (forall r s1, client (store w) = (Ret r, s1) ->
                nullish (error r) = true \/ truthy (error r) = true) ->
  getBillingProvider client w = (Ret p, w') ->
  truthy p = true.
Proof.
  intros Herr. unfold getBillingProvider. cbn.
  unfold bind_M, perform, ret_M, throw.
  destruct (client (store w)) as [[r | e] s1]; [| discriminate].
  specialize (Herr r s1 eq_refl). cbn.
  destruct (nullish (error r)) eqn:Hnullish.
  - destruct (data r) as [ | | b | s | n m | fields]; cbn; try discriminate.
    destruct (truthy (lookup_field "billing_provider" fields)) eqn:Htruthy;
      cbn; [| discriminate].
    intros Hret. inversion Hret; subst. exact Htruthy.
  - destruct Herr as [Habs | Htruthy]; [discriminate Habs |].
    cbn. rewrite Htruthy. discriminate.
Qed.

(** X3. A row with a provider: [createBillingGatewayService] is called once,
    after the query, on the provider of the row, and its result (or its
    exception) is the result of [getBillingGatewayProvider]. *)
Theorem getBillingGatewayProvider_creates_gateway
  (client : ext S QueryResult) (w : world S) fields err s1 r s2 :
  client (store w) = (Ret (mkQueryResult (VObject fields) err), s1) ->
  nullish err = true ->
  truthy (lookup_field "billing_provider" fields) = true ->
  createBillingGatewayService (lookup_field "billing_provider" fields) s1
    = (r, s2) ->
  getBillingGatewayProvider createBillingGatewayService client w =
    (r, mkWorld (log w ++ [config_query;
                           ECall "createBillingGatewayService"
                             [lookup_field "billing_provider" fields]]) s2).
Proof.
  intros Hquery Hnullish Htruthy Hcreate. unfold getBillingGatewayProvider.
  rewrite (bind_ret_run _ _ w (lookup_field "billing_provider" fields)
             (mkWorld (log w ++ [config_query]) s1))
    by (apply (getBillingProvider_found S client w fields err s1); assumption).
  rewrite (perform_run _ _ _ r s2) by exact Hcreate.
  cbn [log]. rewrite <- app_assoc. reflexivity.
Qed.

(** X4. A query error (an [error] that is not nullish, truthy as every object
    is) rejects [getBillingGatewayProvider] with that same value, after the
    query alone: [createBillingGatewayService] is not called. *)
Theorem getBillingGatewayProvider_query_error
  (client : ext S QueryResult) (w : world S) r s1 :
  client (store w) = (Ret r, s1) ->
  nullish (error r) = false ->
  truthy (error r) = true ->
  getBillingGatewayProvider createBillingGatewayService client w =
    (Throw (error r), mkWorld (log w ++ [config_query]) s1).
Proof.
  intros Hquery Hnullish Htruthy.
  apply getBillingGatewayProvider_lookup_fails.
  apply getBillingProvider_query_error; assumption.
Qed.

End BillingGatewayProviderMore.

Lemma getBillingProvider_result_truthy_witness :
  getBillingProvider (config_row (VString "stripe")) empty_world =
    (Ret (VString "stripe"), mkWorld [config_query] [])
  /\ truthy (VString "stripe") = true.
Proof.
  split; [reflexivity |].
  apply (getBillingProvider_result_truthy sample_store
           (config_row (VString "stripe")) empty_world
           (mkWorld [config_query] []) (VString "stripe")).
  - intros r s1 Hq. left. inversion Hq. reflexivity.
  - reflexivity.
Defined.

Lemma getBillingGatewayProvider_creates_gateway_witness :
  getBillingGatewayProvider sample_gateway (config_row (VString "stripe"))
    empty_world =
    (Ret (VString "stripe"),
     mkWorld [config_query;
              ECall "createBillingGatewayService" [VString "stripe"]] []).
Proof.
  exact (getBillingGatewayProvider_creates_gateway sample_store value
           sample_gateway (config_row (VString "stripe")) empty_world
           [("billing_provider", VString "stripe")] VNull []
           (Ret (VString "stripe")) [] eq_refl eq_refl eq_refl eq_refl).
Defined.

(** A [config] table whose query fails with a PostgREST error. *)
Lemma getBillingGatewayProvider_query_error_witness :
  getBillingGatewayProvider sample_gateway
    (fun s => (Ret (mkQueryResult VNull (VError "PostgrestError" "PGRST116")), s))
    empty_world =
    (Throw (VError "PostgrestError" "PGRST116"), mkWorld [config_query] []).
Proof.
  exact (getBillingGatewayProvider_query_error sample_store value
           sample_gateway
           (fun s => (Ret (mkQueryResult VNull
                             (VError "PostgrestError" "PGRST116")), s))
           empty_world
           (mkQueryResult VNull (VError "PostgrestError" "PGRST116")) []
           eq_refl eq_refl eq_refl).
Defined.

(** ** The billing event handler factory, continued *)

Section FactoryMore.

Variable S : Type.
Variable modules : loader S (BillingWebhookHandlerService S).

(** X5. When the package of a supported provider fails to load, the factory
    rejects with the error of the import and constructs nothing. *)
Theorem GetProviderStrategy_import_fails provider specifier class
  (w : world S) e s1 :
  In (provider, specifier, class)
     [("stripe", "@kit/stripe", "StripeWebhookHandlerService");
      ("lemon-squeezy", "@kit/lemon-squeezy",
       "LemonSqueezyWebhookHandlerService")] ->
  modules specifier (store w) = (Throw e, s1) ->
  GetProviderStrategy modules provider w =
    (Throw e, mkWorld (log w ++ [EImport specifier]) s1).
Proof.
  intros Hin Himport.
  assert (Hrun :
    (ns' <- import_ modules specifier ;; new_ ns' class) w =
    (Throw e, mkWorld (log w ++ [EImport specifier]) s1)).
  { apply bind_throw_run. unfold import_. apply perform_run. exact Himport. }
  destruct Hin as [Heq | [Heq | []]]; inversion Heq; subst; exact Hrun.
Qed.

(** X6. When the package loads and the constructor of the handler class
    throws, the factory rejects with the error of the constructor. *)
Theorem GetProviderStrategy_constructor_fails provider specifier class
  (w : world S) ns e s1 s2 :
  In (provider, specifier, class)
     [("stripe", "@kit/stripe", "StripeWebhookHandlerService");
      ("lemon-squeezy", "@kit/lemon-squeezy",
       "LemonSqueezyWebhookHandlerService")] ->
  modules specifier (store w) = (Ret ns, s1) ->
  ns class s1 = (Throw e, s2) ->
  GetProviderStrategy modules provider w =
    (Throw e, mkWorld (log w ++ [EImport specifier; ENew class]) s2).
Proof.
  intros Hin Himport Hnew.
  assert (Hrun :
    (ns' <- import_ modules specifier ;; new_ ns' class) w =
    (Throw e, mkWorld (log w ++ [EImport specifier; ENew class]) s2)).
  { rewrite (bind_ret_run _ _ w ns (mkWorld (log w ++ [EImport specifier]) s1))
      by (unfold import_; apply perform_run; exact Himport).
    unfold new_. rewrite (perform_run _ _ _ (Throw e) s2) by exact Hnew.
    cbn [log]. rewrite <- app_assoc. reflexivity. }
  destruct Hin as [Heq | [Heq | []]]; inversion Heq; subst; exact Hrun.
Qed.

(** X7. Whatever the identifier and whatever the module system does, a call of
    the factory adds at most two events to the log, and an import among
    them is the import of the package of the identifier: "stripe" never
    loads [@kit/lemon-squeezy], "lemon-squeezy" never loads [@kit/stripe],
    and no other identifier loads anything. *)
Theorem GetProviderStrategy_imports_selected_only (provider : string)
  (w : world S) :
  exists added,
    log (snd (GetProviderStrategy modules provider w)) = (log w ++ added)%list
    /\ length added <= 2
    /\ forall specifier,
         In (EImport specifier) added ->
         In (provider, specifier)
            [("stripe", "@kit/stripe"); ("lemon-squeezy", "@kit/lemon-squeezy")].
Proof.
  assert (Hbranch : forall specifier class,
    exists added,
      log (snd ((ns' <- import_ modules specifier ;; new_ ns' class) w))
        = (log w ++ added)%list
      /\ length added <= 2
      /\ forall specifier', In (EImport specifier') added ->
                            specifier' = specifier).
  { intros specifier class. cbn. unfold bind_M, import_, new_, perform.
    destruct (modules specifier (store w)) as [[ns | e] s1].
    - cbn. destruct (ns class s1) as [r s2]. cbn.
      exists [EImport specifier; ENew class]. rewrite <- app_assoc.
      split; [reflexivity | split; [auto |]].
      intros specifier' [Heq | [Heq | []]]; inversion Heq; reflexivity.
    - exists [EImport specifier].
      split; [reflexivity | split; [cbn; auto |]].
      intros specifier' [Heq | []]; inversion Heq; reflexivity. }
  unfold GetProviderStrategy.
  destruct (String.eqb_spec provider "stripe") as [-> | Hstripe].
  { destruct (Hbranch "@kit/stripe" "StripeWebhookHandlerService")
      as [added [Hlog [Hlen Himports]]].
    exists added. split; [exact Hlog | split; [exact Hlen |]].
    intros specifier Hin. rewrite (Himports _ Hin). simpl. auto. }
  destruct (String.eqb_spec provider "lemon-squeezy") as [-> | Hlemon].
  { destruct (Hbranch "@kit/lemon-squeezy" "LemonSqueezyWebhookHandlerService")
      as [added [Hlog [Hlen Himports]]].
    exists added. split; [exact Hlog | split; [exact Hlen |]].
    intros specifier Hin. rewrite (Himports _ Hin). simpl. auto. }
  exists []. rewrite app_nil_r.
  split; [destruct (provider =? "paddle"); reflexivity |].
  split; [cbn; auto | intros specifier []].
Qed.

End FactoryMore.

(** A module system without the provider packages. *)
Lemma GetProviderStrategy_import_fails_witness :
  GetProviderStrategy
    (fun specifier s =>
       (Throw (VError "Error" ("Cannot find module '" ++ specifier ++ "'")), s))
    "lemon-squeezy" empty_world =
    (Throw (VError "Error" "Cannot find module '@kit/lemon-squeezy'"),
     mkWorld [EImport "@kit/lemon-squeezy"] []).
Proof.
  apply (GetProviderStrategy_import_fails sample_store _ "lemon-squeezy"
           "@kit/lemon-squeezy" "LemonSqueezyWebhookHandlerService").
  - simpl. auto.
  - reflexivity.
Defined.

(** A stripe package whose handler cannot be constructed. *)
Lemma GetProviderStrategy_constructor_fails_witness :
  GetProviderStrategy
    (fun _ s =>
       (Ret (fun _ s' => (Throw (VError "Error" "STRIPE_SECRET_KEY is missing"), s')),
        s))
    "stripe" empty_world =
    (Throw (VError "Error" "STRIPE_SECRET_KEY is missing"),
     mkWorld [EImport "@kit/stripe"; ENew "StripeWebhookHandlerService"] []).
Proof.
  apply (GetProviderStrategy_constructor_fails sample_store _ "stripe"
           "@kit/stripe" "StripeWebhookHandlerService" empty_world
           (fun _ s' => (Throw (VError "Error" "STRIPE_SECRET_KEY is missing"), s'))
           _ [] []).
  - simpl. auto.
  - reflexivity.
  - reflexivity.
Defined.

(** ** The database webhook verifier, continued *)

Section DatabaseWebhookVerifierMore.

Variable S : Type.
Variable Verifier : Type.
Variable modules : loader S Verifier.

(** X8. The verifier service is imported exactly when [WEBHOOK_SENDER_PROVIDER]
    is unset or is "postgres": the events a call adds to the log hold that
    import in this case, and there are none in every other. An empty value is
    a value: it is not replaced by the default. *)
Theorem getDatabaseWebhookVerifier_imports_iff_postgres (env : option string)
  (w : world S) :
  exists added,
    log (snd (getDatabaseWebhookVerifier modules env w)) = (log w ++ added)%list
    /\ (In (EImport "./postgres-database-webhook-verifier.service") added
        <-> env = None \/ env = Some "postgres")
    /\ (~ (env = None \/ env = Some "postgres") -> added = []).
Proof.
  unfold getDatabaseWebhookVerifier.
  destruct (String.eqb_spec (WEBHOOK_SENDER_PROVIDER env) "postgres")
    as [Heq | Hneq].
  - assert (Henv : env = None \/ env = Some "postgres").
    { destruct env as [v |]; [right | left; reflexivity].
      cbn in Heq. rewrite Heq. reflexivity. }
    cbn. unfold bind_M, import_, new_, perform.
    destruct (modules _ (store w)) as [[ns | e] s1]; cbn.
    + destruct (ns _ s1) as [r s2]. cbn. rewrite <- app_assoc.
      eexists. split; [reflexivity |]. split; [| tauto].
      split; [intros _; exact Henv | intros _; left; reflexivity].
    + eexists. split; [reflexivity |]. split; [| tauto].
      split; [intros _; exact Henv | intros _; left; reflexivity].
  - exists []. rewrite app_nil_r. split; [reflexivity |].
    split; [| reflexivity].
    split; [intros [] |].
    intros [-> | ->]; exfalso; apply Hneq; reflexivity.
Qed.

End DatabaseWebhookVerifierMore.

(** ** The request middleware: properties *)

Lemma try_catch_ret {S A} (c : M S A) (handler : value -> M S A) w a w' :
  c w = (Ret a, w') -> try_catch c handler w = (Ret a, w').
Proof. intros Hc. unfold try_catch. rewrite Hc. reflexivity. Qed.

Lemma try_catch_throw {S A} (c : M S A) (handler : value -> M S A) w e w' :
  c w = (Throw e, w') -> try_catch c handler w = handler e w'.
Proof. intros Hc. unfold try_catch. rewrite Hc. reflexivity. Qed.

Lemma split_head_app_sep (sep : ascii) (s q : string) :
  split_head sep (s ++ String sep q) = split_head sep s.
Proof.
  induction s as [| c rest IH]; cbn [append split_head].
  - rewrite Ascii.eqb_refl. reflexivity.
  - destruct (Ascii.eqb c sep); [reflexivity | rewrite IH; reflexivity].
Qed.

Lemma headers_get_set_same name v (h : Headers) :
  headers_get name (headers_set name v h) = Some v.
Proof.
  unfold headers_get, headers_set.
  induction h as [| [k x] rest IH]; cbn [filter app find fst].
  - rewrite String.eqb_refl. reflexivity.
  - destruct (k =? name) eqn:Hk; cbn [negb]; [exact IH |].
    cbn [app find fst]. rewrite Hk. exact IH.
Qed.

Lemma headers_get_set_other name v other (h : Headers) :
  other <> name ->
  headers_get other (headers_set name v h) = headers_get other h.
Proof.
  intros Hneq. unfold headers_get, headers_set.
  induction h as [| [k x] rest IH]; cbn [filter app find fst].
  - rewrite (eqb_neq_false name other) by congruence. reflexivity.
  - destruct (k =? name) eqn:Hk; cbn [negb].
    + apply String.eqb_eq in Hk. subst k.
      rewrite (eqb_neq_false name other) by congruence. exact IH.
    + cbn [app find fst]. destruct (k =? other); [reflexivity | exact IH].
Qed.

Section MiddlewareFacts.

Variable S : Type.
Variable env : Collaborators S.

(** [withCsrfMiddleware] in one equation: the check runs once; its success
    gives back the response, a [CsrfError] the 401, another error itself. *)
Lemma withCsrfMiddleware_run (request : NextRequest) (response : NextResponse)
  (w : world S) out s1 :
  createCsrfProtect env (csrfOptions env request) request response (store w)
    = (out, s1) ->
  withCsrfMiddleware env request response w =
    (match out with
     | Ret _ => Ret response
     | Throw e =>
         if instanceof_CsrfError e then Ret (Json "Invalid CSRF token" 401)
         else Throw e
     end,
     mkWorld (log w ++ [csrf_protect_call]) s1).
Proof.
  intros Hcsrf. unfold withCsrfMiddleware.
  destruct out as [u | e].
  - apply try_catch_ret.
    rewrite (bind_ret_run _ _ w u (mkWorld (log w ++ [csrf_protect_call]) s1))
      by (apply perform_run; exact Hcsrf).
    reflexivity.
  - rewrite (try_catch_throw _ _ w e (mkWorld (log w ++ [csrf_protect_call]) s1))
      by (apply bind_throw_run; apply perform_run; exact Hcsrf).
    destruct (instanceof_CsrfError e); reflexivity.
Qed.

(** [setRequestId] in one equation. *)
Lemma setRequestId_run (request : NextRequest) (w : world S) id s0 :
  randomUUID env (store w) = (Ret id, s0) ->
  setRequestId env request w =
    (Ret (with_request_id id request),
     mkWorld (log w ++ [random_uuid_call]) s0).
Proof.
  intros Hid. unfold setRequestId.
  rewrite (bind_ret_run _ _ w id (mkWorld (log w ++ [random_uuid_call]) s0))
    by (apply perform_run; exact Hid).
  reflexivity.
Qed.

(** What lets a response that is no redirect out of [adminMiddleware] on an
    admin path. *)
Lemma adminMiddleware_pass_inv (request : NextRequest)
  (response x : NextResponse) (w w' : world S) :
  prefix "/admin" (pathname request) = true ->
  adminMiddleware env request response w = (Ret (Some x), w') ->
  is_redirect x = false ->
  exists r s1,
    auth_getUser env request response (store w) = (Ret r, s1)
    /\ is_super_admin (user r) = true
    /\ truthy (user_error r) = false
    /\ x = response
    /\ w' = mkWorld (log w ++ [get_user_call]) s1.
Proof.
  intros Hprefix. unfold adminMiddleware. rewrite Hprefix. cbn [negb].
  unfold getUser. cbn. unfold bind_M, perform, ret_M, throw.
  destruct (auth_getUser env request response (store w)) as [[r | e] s1];
    [| discriminate].
  intros Hrun Hredirect. exists r, s1. split; [reflexivity |].
  destruct (truthy (user r)) eqn:Huser; cbn in Hrun;
    [| inversion Hrun; subst; discriminate Hredirect].
  destruct (truthy (user_error r)) eqn:Herror; cbn in Hrun;
    [inversion Hrun; subst; discriminate Hredirect |].
  destruct (user r) as [ | | b | s | n m | user_fields]; cbn in Hrun;
    try discriminate Huser;
    try (inversion Hrun; subst; discriminate Hredirect).
  unfold is_super_admin.
  destruct (lookup_field "app_metadata" user_fields)
    as [ | | b | s | n m | metadata]; cbn in Hrun;
    try discriminate Hrun;
    try (inversion Hrun; subst; discriminate Hredirect).
  destruct (lookup_field "role" metadata) as [ | | b | s | n m | o];
    cbn [truthy strict_neq_string negb orb] in Hrun;
    try (inversion Hrun; subst; discriminate Hredirect);
    try (destruct b; inversion Hrun; subst; discriminate Hredirect).
  destruct (s =? "super-admin") eqn:Hrole.
  - apply String.eqb_eq in Hrole. subst s. cbn in Hrun.
    inversion Hrun; subst. auto.
  - rewrite orb_true_r in Hrun. inversion Hrun; subst. discriminate Hredirect.
Qed.

End MiddlewareFacts.

Section MiddlewareProperties.

Variable S : Type.
Variable env : Collaborators S.

(** X9. The query string of a URL has no part in the choice of a handler:
    appending [?query] to a URL leaves the handler [matchUrlPattern] finds
    as it is (also when the URL holds a [?] already). *)
Theorem matchUrlPattern_ignores_query (u query : string) :
  matchUrlPattern env (u ++ String "?"%char query) = matchUrlPattern env u.
Proof.
  unfold matchUrlPattern. cbn zeta. rewrite split_head_app_sep. reflexivity.
Qed.

(** X10. A [CsrfError] of the check does not reject [withCsrfMiddleware]: it
    resolves with the JSON response 'Invalid CSRF token' of status 401. *)
Theorem withCsrfMiddleware_csrf_error (request : NextRequest)
  (response : NextResponse) (w : world S) e s1 :
  createCsrfProtect env (csrfOptions env request) request response (store w)
    = (Throw e, s1) ->
  instanceof_CsrfError e = true ->
  withCsrfMiddleware env request response w =
    (Ret (Json "Invalid CSRF token" 401),
     mkWorld (log w ++ [csrf_protect_call]) s1).
Proof.
  intros Hcsrf Hclass.
  rewrite (withCsrfMiddleware_run S env request response w _ s1 Hcsrf).
  rewrite Hclass. reflexivity.
Qed.

(** X11. An error of the check that is no [CsrfError] is thrown on as it is. *)
Theorem withCsrfMiddleware_other_error (request : NextRequest)
  (response : NextResponse) (w : world S) e s1 :
  createCsrfProtect env (csrfOptions env request) request response (store w)
    = (Throw e, s1) ->
  instanceof_CsrfError e = false ->
  withCsrfMiddleware env request response w =
    (Throw e, mkWorld (log w ++ [csrf_protect_call]) s1).
Proof.
  intros Hcsrf Hclass.
  rewrite (withCsrfMiddleware_run S env request response w _ s1 Hcsrf).
  rewrite Hclass. reflexivity.
Qed.

(** X12. [setRequestId] replaces the header [x-correlation-id] of the request by
    the identifier drawn, whatever the request carried under that name, and
    leaves every other header and the rest of the request alone. *)
Theorem setRequestId_overrides_header (request : NextRequest) (w : world S)
  id s0 :
  randomUUID env (store w) = (Ret id, s0) ->
  exists request',
    setRequestId env request w =
      (Ret request', mkWorld (log w ++ [random_uuid_call]) s0)
    /\ headers_get "x-correlation-id" (request_headers request') = Some id
    /\ (forall other, other <> "x-correlation-id" ->
          headers_get other (request_headers request')
          = headers_get other (request_headers request))
    /\ (method request', url request', pathname request', origin request')
       = (method request, url request, pathname request, origin request).
Proof.
  intros Hid. exists (with_request_id id request).
  split; [apply setRequestId_run; exact Hid |].
  cbn [with_request_id request_headers method url pathname origin].
  split; [apply headers_get_set_same |].
  split; [| reflexivity].
  intros other Hneq. apply headers_get_set_other. exact Hneq.
Qed.

(** X13. On an admin path, [adminMiddleware] hands out a response that is no
    redirect only for a super-admin: [getUser] returned a user whose
    [app_metadata.role] is 'super-admin', without an error. *)
Theorem adminMiddleware_only_super_admin (request : NextRequest)
  (response x : NextResponse) (w w' : world S) :
  prefix "/admin" (pathname request) = true ->
  adminMiddleware env request response w = (Ret (Some x), w') ->
  is_redirect x = false ->
  exists r s1,
    auth_getUser env request response (store w) = (Ret r, s1)
    /\ is_super_admin (user r) = true
    /\ truthy (user_error r) = false.
Proof.
  intros Hprefix Hrun Hredirect.
  destruct (adminMiddleware_pass_inv S env request response x w w'
              Hprefix Hrun Hredirect)
    as [r [s1 [Huser [Hadmin [Herror _]]]]].
  exists r, s1. auto.
Qed.

(** X14. A super-admin without an error gets the response [adminMiddleware] was
    given, after one call of [getUser]. *)
Theorem adminMiddleware_super_admin_passes (request : NextRequest)
  (response : NextResponse) (w : world S) r s1 :
  prefix "/admin" (pathname request) = true ->
  auth_getUser env request response (store w) = (Ret r, s1) ->
  is_super_admin (user r) = true ->
  truthy (user_error r) = false ->
  adminMiddleware env request response w =
    (Ret (Some response), mkWorld (log w ++ [get_user_call]) s1).
Proof.
  intros Hprefix Huser Hadmin Herror.
  unfold adminMiddleware. rewrite Hprefix. cbn [negb].
  rewrite (bind_ret_run _ _ w r (mkWorld (log w ++ [get_user_call]) s1))
    by (unfold getUser; apply perform_run; exact Huser).
  rewrite Herror. unfold is_super_admin in Hadmin.
  destruct (user r) as [ | | b | s | n m | user_fields];
    try discriminate Hadmin.
  cbn. unfold bind_M, ret_M.
  destruct (lookup_field "app_metadata" user_fields)
    as [ | | b | s | n m | metadata]; try discriminate Hadmin.
  cbn.
  destruct (lookup_field "role" metadata) as [ | | b | s | n m | o];
    try discriminate Hadmin.
  cbn [truthy strict_neq_string]. rewrite Hadmin.
  apply String.eqb_eq in Hadmin. subst s. reflexivity.
Qed.

(** X15. Without a user, or with an error of [getUser], an admin path is
    redirected to the sign-in page of the request's origin. *)
Theorem adminMiddleware_unauthenticated (request : NextRequest)
  (response : NextResponse) (w : world S) r s1 :
  prefix "/admin" (pathname request) = true ->
  auth_getUser env request response (store w) = (Ret r, s1) ->
  truthy (user r) = false \/ truthy (user_error r) = true ->
  adminMiddleware env request response w =
    (Ret (Some (Redirect (auth_signIn (pathsConfig env)) (origin request))),
     mkWorld (log w ++ [get_user_call]) s1).
Proof.
  intros Hprefix Huser Hcase.
  unfold adminMiddleware. rewrite Hprefix. cbn [negb].
  rewrite (bind_ret_run _ _ w r (mkWorld (log w ++ [get_user_call]) s1))
    by (unfold getUser; apply perform_run; exact Huser).
  destruct Hcase as [Hnone | Herror].
  - rewrite Hnone. reflexivity.
  - rewrite Herror, orb_true_r. reflexivity.
Qed.

(** X16. A signed-in user whose role is not 'super-admin' (another string, or
    none) is redirected to [/404]. *)
Theorem adminMiddleware_other_role (request : NextRequest)
  (response : NextResponse) (w : world S) r s1 user_fields metadata :
  prefix "/admin" (pathname request) = true ->
  auth_getUser env request response (store w) = (Ret r, s1) ->
  truthy (user_error r) = false ->
  user r = VObject user_fields ->
  lookup_field "app_metadata" user_fields = VObject metadata ->
  lookup_field "role" metadata <> VString "super-admin" ->
  adminMiddleware env request response w =
    (Ret (Some (Redirect "/404" (origin request))),
     mkWorld (log w ++ [get_user_call]) s1).
Proof.
  intros Hprefix Huser Herror Hobject Hmetadata Hrole.
  unfold adminMiddleware. rewrite Hprefix. cbn [negb].
  rewrite (bind_ret_run _ _ w r (mkWorld (log w ++ [get_user_call]) s1))
    by (unfold getUser; apply perform_run; exact Huser).
  rewrite Herror, Hobject. cbn. unfold bind_M, ret_M.
  rewrite Hmetadata. cbn.
  destruct (lookup_field "role" metadata) as [ | | b | s | n m | o];
    cbn [truthy strict_neq_string negb orb]; try reflexivity.
  - destruct b; reflexivity.
  - destruct (String.eqb_spec s "super-admin") as [-> | Hneq].
    + exfalso. apply Hrole. reflexivity.
    + rewrite orb_true_r. reflexivity.
Qed.

(** X17. The [/auth*] handler leaves a visitor without a user alone, also when
    [getUser] reports an error: it returns nothing and redirects nowhere. *)
Theorem authHandler_signed_out (req : NextRequest) (res : NextResponse)
  (w : world S) r s1 :
  auth_getUser env req res (store w) = (Ret r, s1) ->
  truthy (user r) = false ->
  authHandler env req res w =
    (Ret None, mkWorld (log w ++ [get_user_call]) s1).
Proof.
  intros Huser Hnone. unfold authHandler.
  rewrite (bind_ret_run _ _ w r (mkWorld (log w ++ [get_user_call]) s1))
    by (unfold getUser; apply perform_run; exact Huser).
  rewrite Hnone. reflexivity.
Qed.

(** X18. The [/auth*] handler sends a signed-in user home from every path but
    the MFA verification page, where it returns nothing. *)
Theorem authHandler_signed_in (req : NextRequest) (res : NextResponse)
  (w : world S) r s1 :
  auth_getUser env req res (store w) = (Ret r, s1) ->
  truthy (user r) = true ->
  (pathname req <> auth_verifyMfa (pathsConfig env) ->
   authHandler env req res w =
     (Ret (Some (Redirect (app_home (pathsConfig env)) (origin req))),
      mkWorld (log w ++ [get_user_call]) s1))
  /\
  (pathname req = auth_verifyMfa (pathsConfig env) ->
   authHandler env req res w =
     (Ret None, mkWorld (log w ++ [get_user_call]) s1)).
Proof.
  intros Huser Hsome. unfold authHandler.
  rewrite (bind_ret_run _ _ w r (mkWorld (log w ++ [get_user_call]) s1))
    by (unfold getUser; apply perform_run; exact Huser).
  rewrite Hsome. cbn [negb].
  split; intros Hpath.
  - rewrite (eqb_neq_false _ _ Hpath). reflexivity.
  - rewrite Hpath, String.eqb_refl. reflexivity.
Qed.

(** X19. The [/home*] handler redirects a visitor without a user to the sign-in
    page with the path asked for as [next], and does not run the MFA
    check. *)
Theorem homeHandler_signed_out (req : NextRequest) (res : NextResponse)
  (w : world S) r s1 :
  auth_getUser env req res (store w) = (Ret r, s1) ->
  truthy (user r) = false ->
  homeHandler env req res w =
    (Ret (Some (Redirect
                  (auth_signIn (pathsConfig env) ++ "?next=" ++ pathname req)
                  (origin req))),
     mkWorld (log w ++ [get_user_call]) s1).
Proof.
  intros Huser Hnone. unfold homeHandler.
  rewrite (bind_ret_run _ _ w r (mkWorld (log w ++ [get_user_call]) s1))
    by (unfold getUser; apply perform_run; exact Huser).
  rewrite Hnone. reflexivity.
Qed.

(** X20. For a signed-in user the [/home*] handler runs the MFA check once:
    a truthy answer redirects to the MFA verification page, a falsy one
    returns nothing, and a rejection of the check rejects the handler. *)
Theorem homeHandler_signed_in (req : NextRequest) (res : NextResponse)
  (w : world S) r s1 out s2 :
  auth_getUser env req res (store w) = (Ret r, s1) ->
  truthy (user r) = true ->
  checkRequiresMultiFactorAuthentication env req res s1 = (out, s2) ->
  homeHandler env req res w =
    (match out with
     | Ret required =>
         Ret (if truthy required
              then Some (Redirect (auth_verifyMfa (pathsConfig env)) (origin req))
              else None)
     | Throw e => Throw e
     end,
     mkWorld (log w ++ [get_user_call; mfa_check_call]) s2).
Proof.
  intros Huser Hsome Hmfa. unfold homeHandler.
  rewrite (bind_ret_run _ _ w r (mkWorld (log w ++ [get_user_call]) s1))
    by (unfold getUser; apply perform_run; exact Huser).
  rewrite Hsome. cbn [negb]. cbn zeta.
  destruct out as [required | e].
  - rewrite (bind_ret_run _ _ _ required
               (mkWorld (log w ++ [get_user_call; mfa_check_call]) s2)).
    + destruct (truthy required); reflexivity.
    + rewrite (perform_run _ _ _ (Ret required) s2) by exact Hmfa.
      cbn [log]. rewrite <- app_assoc. reflexivity.
  - apply bind_throw_run.
    rewrite (perform_run _ _ _ (Throw e) s2) by exact Hmfa.
    cbn [log]. rewrite <- app_assoc. reflexivity.
Qed.

End MiddlewareProperties.

Section MiddlewareComposition.

Variable S : Type.
Variable env : Collaborators S.


(** [middleware] after its first two steps. *)
Lemma middleware_after_csrf (request : NextRequest) (w w1 : world S) id s0 out :
  randomUUID env (store w) = (Ret id, s0) ->
  withCsrfMiddleware env (with_request_id id request) Next
    (mkWorld (log w ++ [random_uuid_call]) s0) = (out, w1) ->
  middleware env request w =
    match out with
    | Throw e => (Throw e, w1)
    | Ret csrfResponse =>
        match matchUrlPattern env (url request) with
        | Some handlePattern =>
            match handlePattern (with_request_id id request) csrfResponse w1 with
            | (Ret (Some r), w2) => (Ret r, w2)
            | (Ret None, w2) => (Ret csrfResponse, w2)
            | (Throw e, w2) => (Throw e, w2)
            end
        | None => (Ret csrfResponse, w1)
        end
    end.
Proof.
  intros Hid Hcsrf. unfold middleware. cbn zeta.
  rewrite (bind_ret_run _ _ w (with_request_id id request)
             (mkWorld (log w ++ [random_uuid_call]) s0))
    by (apply setRequestId_run; exact Hid).
  destruct out as [csrfResponse | e].
  - rewrite (bind_ret_run _ _ _ csrfResponse w1) by exact Hcsrf.
    cbn [url with_request_id].
    destruct (matchUrlPattern env (url request)) as [handlePattern |];
      [| reflexivity].
    cbn. unfold bind_M, ret_M.
    destruct (handlePattern (with_request_id id request) csrfResponse w1)
      as [[[r |] | e] w2]; reflexivity.
  - apply bind_throw_run. exact Hcsrf.
Qed.

(** X21. A URL none of the three patterns matches: the middleware draws the
    request identifier, runs the CSRF check and answers with its response,
    without asking for the user. *)
Theorem middleware_unmatched_url (request : NextRequest) (w : world S)
  id s0 u s1 :
  (forall pattern, In pattern ["/admin*"; "/auth*"; "/home*"] ->
     urlPatternExec env pattern (split_head "?"%char (url request)) = false) ->
  randomUUID env (store w) = (Ret id, s0) ->
  createCsrfProtect env (csrfOptions env (with_request_id id request))
    (with_request_id id request) Next s0 = (Ret u, s1) ->
  middleware env request w =
    (Ret Next, mkWorld (log w ++ [random_uuid_call; csrf_protect_call]) s1).
Proof.
  intros Hnone Hid Hcsrf.
  rewrite (middleware_after_csrf request w
             (mkWorld (log w ++ [random_uuid_call; csrf_protect_call]) s1)
             id s0 (Ret Next) Hid).
  - unfold matchUrlPattern, getPatterns. cbn [find fst].
    rewrite !Hnone by (simpl; auto). reflexivity.
  - rewrite (withCsrfMiddleware_run S env _ Next _ (Ret u) s1) by exact Hcsrf.
    cbn [log]. rewrite <- app_assoc. reflexivity.
Qed.

(** X22. An error of the CSRF check that is no [CsrfError] rejects the
    middleware with that error, whatever the URL: no pattern handler runs
    and the user is not asked for. *)
Theorem middleware_other_csrf_error_rejects (request : NextRequest)
  (w : world S) id s0 e s1 :
  randomUUID env (store w) = (Ret id, s0) ->
  createCsrfProtect env (csrfOptions env (with_request_id id request))
    (with_request_id id request) Next s0 = (Throw e, s1) ->
  instanceof_CsrfError e = false ->
  middleware env request w =
    (Throw e, mkWorld (log w ++ [random_uuid_call; csrf_protect_call]) s1).
Proof.
  intros Hid Hcsrf Hclass.
  rewrite (middleware_after_csrf request w
             (mkWorld (log w ++ [random_uuid_call; csrf_protect_call]) s1)
             id s0 (Throw e) Hid).
  - reflexivity.
  - rewrite (withCsrfMiddleware_run S env _ Next _ (Throw e) s1) by exact Hcsrf.
    rewrite Hclass. cbn [log]. rewrite <- app_assoc. reflexivity.
Qed.

(** X23. A failed CSRF check does not end the middleware: on a [/home*] URL the
    handler still runs on the 401 response, and for a visitor without a
    user its redirect to the sign-in page is the answer, not the 401. *)
Theorem middleware_redirect_replaces_csrf_failure (request : NextRequest)
  (w : world S) id s0 e s1 r s2 :
  urlPatternExec env "/admin*" (split_head "?"%char (url request)) = false ->
  urlPatternExec env "/auth*" (split_head "?"%char (url request)) = false ->
  urlPatternExec env "/home*" (split_head "?"%char (url request)) = true ->
  randomUUID env (store w) = (Ret id, s0) ->
  createCsrfProtect env (csrfOptions env (with_request_id id request))
    (with_request_id id request) Next s0 = (Throw e, s1) ->
  instanceof_CsrfError e = true ->
  auth_getUser env (with_request_id id request)
    (Json "Invalid CSRF token" 401) s1 = (Ret r, s2) ->
  truthy (user r) = false ->
  middleware env request w =
    (Ret (Redirect (auth_signIn (pathsConfig env) ++ "?next=" ++ pathname request)
            (origin request)),
     mkWorld (log w ++ [random_uuid_call; csrf_protect_call; get_user_call]) s2).
Proof.
  intros Hadmin Hauth Hhome Hid Hcsrf Hclass Huser Hnone.
  rewrite (middleware_after_csrf request w
             (mkWorld (log w ++ [random_uuid_call; csrf_protect_call]) s1)
             id s0 (Ret (Json "Invalid CSRF token" 401)) Hid).
  - unfold matchUrlPattern, getPatterns. cbn [find fst].
    rewrite Hadmin, Hauth, Hhome. cbn [option_map snd].
    unfold homeHandler.
    rewrite (bind_ret_run _ _ _ r
               (mkWorld (log w ++ [random_uuid_call; csrf_protect_call;
                                   get_user_call]) s2)).
    + rewrite Hnone. reflexivity.
    + unfold getUser. rewrite (perform_run _ _ _ (Ret r) s2) by exact Huser.
      cbn [log]. rewrite <- app_assoc. reflexivity.
  - rewrite (withCsrfMiddleware_run S env _ Next _ (Throw e) s1) by exact Hcsrf.
    rewrite Hclass. cbn [log]. rewrite <- app_assoc. reflexivity.
Qed.


End MiddlewareComposition.

(** ** update-member-role-dialog.tsx *)

Section UpdateMemberFormFacts.

Variable S : Type.
Variable updateMemberRoleAction : string -> string -> string -> ext S value.
Variable setIsOpen : bool -> ext S unit.
Variable setError : bool -> ext S unit.


(** X26. When the server action rejects, with whatever error, the error is not
    passed on: [setError(true)] is called, the dialog stays open
    ([setIsOpen] is not called), and the outcome is that of the setter. *)
Theorem onSubmit_swallows_action_error (accountId userId role : string)
  (w : world S) e s1 out s2 :
  updateMemberRoleAction accountId userId role (store w) = (Throw e, s1) ->
  setError true s1 = (out, s2) ->
  onSubmit updateMemberRoleAction setIsOpen setError accountId userId role w =
    (out,
     mkWorld (log w ++ [update_member_role_call accountId userId role;
                        ECall "setError" [VBool true]]) s2).
Proof.
  intros Haction Hset. unfold onSubmit.
  rewrite (try_catch_throw _ _ w e
             (mkWorld (log w ++ [update_member_role_call accountId userId role])
                s1))
    by (apply bind_throw_run; apply perform_run; exact Haction).
  rewrite (perform_run _ _ _ out s2) by exact Hset.
  cbn [log]. rewrite <- app_assoc. reflexivity.
Qed.

End UpdateMemberFormFacts.

(** ** The further properties on the sample surroundings *)

Lemma GetProviderStrategy_imports_selected_only_witness :
  exists added,
    log (snd (GetProviderStrategy sample_modules "stripe" empty_world))
      = ([] ++ added)%list
    /\ ~ In (EImport "@kit/lemon-squeezy") added.
Proof.
  destruct (GetProviderStrategy_imports_selected_only sample_store
              sample_modules "stripe" empty_world)
    as [added [Hlog [_ Himports]]].
  exists added. split; [exact Hlog |].
  intros Hin. specialize (Himports _ Hin).
  simpl in Himports. destruct Himports as [H | [H | []]]; discriminate H.
Defined.

Lemma getDatabaseWebhookVerifier_imports_iff_postgres_witness :
  exists added,
    log (snd (getDatabaseWebhookVerifier sample_verifier_modules (Some "")
                empty_world)) = ([] ++ added)%list
    /\ added = [].
Proof.
  destruct (getDatabaseWebhookVerifier_imports_iff_postgres sample_store
              string sample_verifier_modules (Some "") empty_world)
    as [added [Hlog [_ Hnone]]].
  exists added. split; [exact Hlog |].
  apply Hnone. intros [H | H]; discriminate H.
Defined.

Lemma withCsrfMiddleware_csrf_error_witness :
  withCsrfMiddleware sample_env (sample_request "POST" "/home/settings" [])
    Next empty_world =
    (Ret (Json "Invalid CSRF token" 401), mkWorld [csrf_protect_call] []).
Proof.
  exact (withCsrfMiddleware_csrf_error sample_store sample_env
           (sample_request "POST" "/home/settings" []) Next empty_world
           (VError "CsrfError" "csrf validation error") [] eq_refl eq_refl).
Defined.

Lemma withCsrfMiddleware_other_error_witness :
  withCsrfMiddleware broken_csrf_env
    (sample_request "POST" "/home/settings" []) Next empty_world =
    (Throw (VError "TypeError" "fetch failed"),
     mkWorld [csrf_protect_call] []).
Proof.
  exact (withCsrfMiddleware_other_error sample_store broken_csrf_env
           (sample_request "POST" "/home/settings" []) Next empty_world
           (VError "TypeError" "fetch failed") [] eq_refl eq_refl).
Defined.

(** A request that arrives with an identifier of its sender's choice. *)
Lemma setRequestId_overrides_header_witness :
  exists request',
    setRequestId sample_env
      (sample_request "GET" "/pricing"
         [("x-correlation-id", "forged"); ("accept", "text/html")])
      empty_world = (Ret request', mkWorld [random_uuid_call] [])
    /\ headers_get "x-correlation-id" (request_headers request')
       = Some sample_uuid
    /\ headers_get "accept" (request_headers request') = Some "text/html".
Proof.
  destruct (setRequestId_overrides_header sample_store sample_env
              (sample_request "GET" "/pricing"
                 [("x-correlation-id", "forged"); ("accept", "text/html")])
              empty_world sample_uuid [] eq_refl)
    as [request' [Hrun [Hid [Hother _]]]].
  exists request'. split; [exact Hrun | split; [exact Hid |]].
  rewrite (Hother "accept") by discriminate. reflexivity.
Defined.

Lemma adminMiddleware_only_super_admin_witness :
  exists r s1,
    sample_getUser
      (sample_request "GET" "/admin/users" [("session", "super-admin")])
      Next [] = (Ret r, s1)
    /\ is_super_admin (user r) = true
    /\ truthy (user_error r) = false.
Proof.
  exact (adminMiddleware_only_super_admin sample_store sample_env
           (sample_request "GET" "/admin/users" [("session", "super-admin")])
           Next Next empty_world (mkWorld [get_user_call] [])
           eq_refl eq_refl eq_refl).
Defined.

Lemma adminMiddleware_super_admin_passes_witness :
  adminMiddleware sample_env
    (sample_request "GET" "/admin/users" [("session", "super-admin")])
    Next empty_world =
    (Ret (Some Next), mkWorld [get_user_call] []).
Proof.
  exact (adminMiddleware_super_admin_passes sample_store sample_env
           (sample_request "GET" "/admin/users" [("session", "super-admin")])
           Next empty_world
           (mkUserResponse (user_with_role "super-admin") VNull) []
           eq_refl eq_refl eq_refl eq_refl).
Defined.

Lemma adminMiddleware_unauthenticated_witness :
  adminMiddleware sample_env (sample_request "GET" "/admin/users" [])
    Next empty_world =
    (Ret (Some (Redirect "/auth/sign-in" "https://app.test")),
     mkWorld [get_user_call] []).
Proof.
  exact (adminMiddleware_unauthenticated sample_store sample_env
           (sample_request "GET" "/admin/users" []) Next empty_world
           (mkUserResponse VNull
              (VError "AuthSessionMissingError" "Auth session missing!")) []
           eq_refl eq_refl (or_introl eq_refl)).
Defined.

Lemma adminMiddleware_other_role_witness :
  adminMiddleware sample_env
    (sample_request "GET" "/admin/users" [("session", "member")])
    Next empty_world =
    (Ret (Some (Redirect "/404" "https://app.test")),
     mkWorld [get_user_call] []).
Proof.
  apply (adminMiddleware_other_role sample_store sample_env
           (sample_request "GET" "/admin/users" [("session", "member")])
           Next empty_world
           (mkUserResponse (user_with_role "member") VNull) []
           [("id", VString "u1");
            ("app_metadata", VObject [("role", VString "member")])]
           [("role", VString "member")]);
    try reflexivity.
  cbn. discriminate.
Defined.

Lemma authHandler_signed_out_witness :
  authHandler sample_env (sample_request "GET" "/auth/sign-in" [])
    Next empty_world =
    (Ret None, mkWorld [get_user_call] []).
Proof.
  exact (authHandler_signed_out sample_store sample_env
           (sample_request "GET" "/auth/sign-in" []) Next empty_world
           (mkUserResponse VNull
              (VError "AuthSessionMissingError" "Auth session missing!")) []
           eq_refl eq_refl).
Defined.

Lemma authHandler_signed_in_witness :
  authHandler sample_env
    (sample_request "GET" "/auth/sign-in" [("session", "member")])
    Next empty_world =
    (Ret (Some (Redirect "/home" "https://app.test")),
     mkWorld [get_user_call] [])
  /\
  authHandler sample_env
    (sample_request "GET" "/auth/verify" [("session", "member")])
    Next empty_world =
    (Ret None, mkWorld [get_user_call] []).
Proof.
  split.
  - apply (proj1 (authHandler_signed_in sample_store sample_env
                    (sample_request "GET" "/auth/sign-in" [("session", "member")])
                    Next empty_world
                    (mkUserResponse (user_with_role "member") VNull) []
                    eq_refl eq_refl)).
    cbn. discriminate.
  - apply (proj2 (authHandler_signed_in sample_store sample_env
                    (sample_request "GET" "/auth/verify" [("session", "member")])
                    Next empty_world
                    (mkUserResponse (user_with_role "member") VNull) []
                    eq_refl eq_refl)).
    reflexivity.
Defined.

Lemma homeHandler_signed_out_witness :
  homeHandler sample_env (sample_request "GET" "/home/settings" [])
    Next empty_world =
    (Ret (Some (Redirect "/auth/sign-in?next=/home/settings" "https://app.test")),
     mkWorld [get_user_call] []).
Proof.
  exact (homeHandler_signed_out sample_store sample_env
           (sample_request "GET" "/home/settings" []) Next empty_world
           (mkUserResponse VNull
              (VError "AuthSessionMissingError" "Auth session missing!")) []
           eq_refl eq_refl).
Defined.

Lemma homeHandler_signed_in_witness :
  homeHandler sample_env
    (sample_request "GET" "/home/settings"
       [("session", "member"); ("mfa", "required")])
    Next empty_world =
    (Ret (Some (Redirect "/auth/verify" "https://app.test")),
     mkWorld [get_user_call; mfa_check_call] []).
Proof.
  exact (homeHandler_signed_in sample_store sample_env
           (sample_request "GET" "/home/settings"
              [("session", "member"); ("mfa", "required")])
           Next empty_world
           (mkUserResponse (user_with_role "member") VNull) []
           (Ret (VBool true)) [] eq_refl eq_refl eq_refl).
Defined.

Lemma middleware_unmatched_url_witness :
  middleware sample_env (sample_request "GET" "/pricing" []) empty_world =
    (Ret Next, mkWorld [random_uuid_call; csrf_protect_call] []).
Proof.
  apply (middleware_unmatched_url sample_store sample_env
           (sample_request "GET" "/pricing" []) empty_world
           sample_uuid [] tt []).
  - intros pattern [<- | [<- | [<- | []]]]; reflexivity.
  - reflexivity.
  - reflexivity.
Defined.

Lemma middleware_other_csrf_error_rejects_witness :
  middleware broken_csrf_env
    (sample_request "GET" "/admin/users" [("session", "super-admin")])
    empty_world =
    (Throw (VError "TypeError" "fetch failed"),
     mkWorld [random_uuid_call; csrf_protect_call] []).
Proof.
  exact (middleware_other_csrf_error_rejects sample_store broken_csrf_env
           (sample_request "GET" "/admin/users" [("session", "super-admin")])
           empty_world sample_uuid [] (VError "TypeError" "fetch failed") []
           eq_refl eq_refl eq_refl).
Defined.

Lemma middleware_redirect_replaces_csrf_failure_witness :
  middleware sample_env (sample_request "POST" "/home/settings" [])
    empty_world =
    (Ret (Redirect "/auth/sign-in?next=/home/settings" "https://app.test"),
     mkWorld [random_uuid_call; csrf_protect_call; get_user_call] []).
Proof.
  exact (middleware_redirect_replaces_csrf_failure sample_store sample_env
           (sample_request "POST" "/home/settings" []) empty_world
           sample_uuid [] (VError "CsrfError" "csrf validation error") []
           (mkUserResponse VNull
              (VError "AuthSessionMissingError" "Auth session missing!")) []
           eq_refl eq_refl eq_refl eq_refl eq_refl eq_refl eq_refl eq_refl).
Defined.



Lemma onSubmit_swallows_action_error_witness :
  onSubmit sample_action (sample_setter "isOpen") (sample_setter "error")
    "acc_1" "u1" "owner" empty_world =
    (Ret tt,
     mkWorld [update_member_role_call "acc_1" "u1" "owner";
              ECall "setError" [VBool true]]
             [VObject [("error", VBool true)]]).
Proof.
  exact (onSubmit_swallows_action_error sample_store sample_action
           (sample_setter "isOpen") (sample_setter "error")
           "acc_1" "u1" "owner" empty_world (VError "Error" "forbidden") []
           (Ret tt) [VObject [("error", VBool true)]] eq_refl eq_refl).
Defined.
